(** * Open-loop swerve bring-up: the [Drive] subsystem

    A shallow embedding of [src/subsystems/drive.py].  Python floats are
    IEEE-754 binary64 values, so joystick inputs and duty cycles are Rocq's
    primitive [float]s: comparisons with NaN are false and [0 * infinity]
    is NaN here exactly as in the interpreter.  Calls that reach outside the
    module (the motor vendor API, the driver-station log, generated Tuner
    code) are recorded as events of a trace; a raised exception ends the
    computation with that exception. *)

From Stdlib Require Import ZArith Floats.
From stdpp Require Import base option list strings gmap.

Local Open Scope float_scope.

(** ** Exceptions *)

Inductive exn_class :=
| TypeError
| AttributeError
| ModuleNotFoundError
| ImportError
| RuntimeError
| OtherException
| KeyboardInterrupt.

(** [raise cls(msg)], and [raise cls(msg) from cause], which keeps the
    cause. *)
Inductive exn :=
| Exn (cls : exn_class) (msg : string)
| ExnFrom (cls : exn_class) (msg : string) (cause : exn).

Definition exn_type (e : exn) : exn_class :=
  match e with Exn c _ | ExnFrom c _ _ => c end.
Definition exn_str (e : exn) : string :=
  match e with Exn _ m | ExnFrom _ m _ => m end.

(** [except TypeError] *)
Definition is_TypeError (e : exn) : bool :=
  match exn_type e with TypeError => true | _ => false end.

(** [except ModuleNotFoundError] *)
Definition is_ModuleNotFoundError (e : exn) : bool :=
  match exn_type e with ModuleNotFoundError => true | _ => false end.

(** [except Exception]: everything but the [BaseException]-only classes. *)
Definition is_Exception (e : exn) : bool :=
  match exn_type e with KeyboardInterrupt => false | _ => true end.

Inductive outcome (A : Type) :=
| Returns (a : A)
| Raises (e : exn).
Arguments Returns {A} a.
Arguments Raises {A} e.

(** ** Vendor objects *)

(** [TalonFX(device_id, canbus)] *)
Record TalonFX := { device_id : Z; canbus : string }.

(** [DutyCycleOut(output)] *)
Record DutyCycleOut := { output : float }.

(** ** Events and the effect monad *)

Inductive event :=
| TalonFX_init (device : Z) (bus : string)
| set_control (motor : TalonFX) (request : DutyCycleOut)
| reportWarning (message : string) (printTrace : bool)
| external (what : string).

Definition M (A : Type) : Type := (list event * outcome A)%type.

#[export] Instance M_ret : MRet M := fun A a => ([], Returns a).

#[export] Instance M_bind : MBind M := fun A B k m =>
  match m with
  | (tr, Returns a) => let '(tr', r) := k a in (tr ++ tr', r)
  | (tr, Raises e) => (tr, Raises e)
  end.

Definition emit (ev : event) : M unit := ([ev], Returns tt).
Definition raise {A} (e : exn) : M A := ([], Raises e).

(** [try: body  except <handles>: handler] *)
Definition try_except {A} (body : M A) (handles : exn -> bool)
    (handler : exn -> M A) : M A :=
  match body with
  | (tr, Returns a) => (tr, Returns a)
  | (tr, Raises e) =>
      if handles e then let '(tr', r) := handler e in (tr ++ tr', r)
      else (tr, Raises e)
  end.

(** [wpilib.DriverStation.reportWarning(message, printTrace)].  RobotPy's
    [DriverStation] has no attribute of that name (the function that logs a
    warning is [wpilib.reportWarning]), so evaluating the callee raises
    [AttributeError] before any argument is looked at and nothing reaches
    the driver station. *)
Definition DriverStation_reportWarning (message : string) (printTrace : bool)
    : M unit :=
  raise (Exn AttributeError
           "type object 'DriverStation' has no attribute 'reportWarning'").

(** [for item in items: body(item)] *)
Fixpoint for_each {A} (items : list A) (body : A -> M unit) : M unit :=
  match items with
  | [] => mret tt
  | item :: rest => body item;; for_each rest body
  end.

Definition trace_of {A} (m : M A) : list event := fst m.
Definition result_of {A} (m : M A) : outcome A := snd m.

(** ** Shaping: [Drive._apply_deadband] and [Drive._clamp] *)

Definition _apply_deadband (value deadband : float) : float :=
  if abs value <? deadband then 0 else value.

(** Python's two-argument [min(a, b)] keeps [a] unless [b < a], and
    [max(a, b)] keeps [a] unless [b > a]. *)
Definition py_min (a b : float) : float := if b <? a then b else a.
Definition py_max (a b : float) : float := if a <? b then b else a.

Definition _clamp (value : float) : float := py_max (-1) (py_min 1 value).

Definition in_unit_interval (v : float) : bool := (-1 <=? v) && (v <=? 1).


(** ** Configuration: [utils.constants.DriveConstants]

    The constants module is not part of the sources at hand; the subsystem
    is modelled over an arbitrary configuration. *)

Record SwerveModule := { drive_motor_id : Z; steer_motor_id : Z }.

Record DriveConstantsT := {
  TRANSLATION_DEADBAND : float;
  ROTATION_DEADBAND : float;
  MAX_TRANSLATION_OUTPUT : float;
  MAX_ROTATION_OUTPUT : float;
  MODULES : list SwerveModule;
  CANBUS_NAME : string
}.

(** ** Foreign objects: the optional Tuner-generated code *)

(** What [getattr(obj, name, None)] yields when it is not [None]; the
    payload is what calling it does. *)
Inductive attr (A : Type) :=
| NotCallable
| Callable (call : A).
Arguments NotCallable {A}.
Arguments Callable {A} call.

(** A foreign object handed back as an autonomous command;
    [has_schedule] is [hasattr(command, "schedule")]. *)
Record py_object := { repr : string; has_schedule : bool }.

(** [factory()] and [factory(self)] *)
Inductive call_args := no_args | with_self.

Definition factory : Type := call_args -> M (option py_object).

(** The drivetrain override, seen through the two attributes the
    subsystem looks up on it. *)
Record tuner_object := {
  attr_drive : option (attr (float -> float -> float -> bool -> M unit));
  attr_get_autonomous_command : option (attr (M (option py_object)))
}.

(** A candidate module, seen through the two names looked up in it. *)
Record py_module := {
  CommandSwerveDrivetrain : option (attr (M (option tuner_object)));
  build_autonomous_command : option (attr factory)
}.

(** [getattr(module, class_name, None)] *)
Definition getattr_class (module : py_module) (class_name : string)
    : option (attr (M (option tuner_object))) :=
  if String.eqb class_name "CommandSwerveDrivetrain"
  then CommandSwerveDrivetrain module else None.

(** [getattr(module, fn_name, None)] *)
Definition getattr_fn (module : py_module) (fn_name : string)
    : option (attr factory) :=
  if String.eqb fn_name "build_autonomous_command"
  then build_autonomous_command module else None.

(** Calling an object that is not callable raises [TypeError]. *)
Definition call {A} (f : attr (M A)) : M A :=
  match f with
  | Callable c => c
  | NotCallable => raise (Exn TypeError "object is not callable")
  end.

(** The interpreter's environment: how the two [phoenix6] imports at the
    top of the module end, and what [importlib.import_module] does. *)
Record py_env := {
  phoenix6_imports : outcome unit;
  import_module : string -> outcome py_module
}.

(** ** Module level: the guarded vendor import (lines 12-20) *)

Record module_globals := {
  TalonFX_bound : bool;
  DutyCycleOut_bound : bool;
  _PHOENIX_IMPORT_ERROR : option exn
}.

Definition load_module (env : py_env) : outcome module_globals :=
  match phoenix6_imports env with
  | Returns _ =>
      Returns {| TalonFX_bound := true; DutyCycleOut_bound := true;
                 _PHOENIX_IMPORT_ERROR := None |}
  | Raises exc =>
      if is_ModuleNotFoundError exc
      then Returns {| TalonFX_bound := false; DutyCycleOut_bound := false;
                      _PHOENIX_IMPORT_ERROR := Some exc |}
      else Raises exc
  end.

(** ** The [Drive] object *)

Inductive CommandScheduler := CommandScheduler_getInstance.

Record Drive := {
  scheduler : option CommandScheduler;
  tuner_drivetrain : option tuner_object;
  _autonomous_factory : option factory;
  drive_motors : list TalonFX;
  steer_motors : list TalonFX
}.

Definition append_drive_motor (self : Drive) (m : TalonFX) : Drive :=
  {| scheduler := scheduler self;
     tuner_drivetrain := tuner_drivetrain self;
     _autonomous_factory := _autonomous_factory self;
     drive_motors := drive_motors self ++ [m];
     steer_motors := steer_motors self |}.

Definition append_steer_motor (self : Drive) (m : TalonFX) : Drive :=
  {| scheduler := scheduler self;
     tuner_drivetrain := tuner_drivetrain self;
     _autonomous_factory := _autonomous_factory self;
     drive_motors := drive_motors self;
     steer_motors := steer_motors self ++ [m] |}.

(** The device ids the vendor constructor accepts. *)
Definition valid_device_id (id : Z) : bool := (0 <=? id)%Z && (id <=? 62)%Z.

(** The vendor constructor: for an id in range it opens the device and
    hands back its handle; any other id it refuses by raising (an exception
    of the vendor's own, none of the classes told apart here). *)
Definition new_TalonFX (id : Z) (bus : string) : M TalonFX :=
  if valid_device_id id
  then emit (TalonFX_init id bus);; mret {| device_id := id; canbus := bus |}
  else raise (Exn OtherException "device id out of range").

(** A module whose two ids the vendor constructor accepts. *)
Definition module_ids_valid (module : SwerveModule) : bool :=
  valid_device_id (drive_motor_id module) && valid_device_id (steer_motor_id module).

(** [motor.set_control(DutyCycleOut(output))] *)
Definition command_duty (motor : TalonFX) (out : float) : M unit :=
  emit (set_control motor {| output := out |}).

(** ** The duty cycle each device was last given *)

Definition motor_key (m : TalonFX) : Z * string := (device_id m, canbus m).

Definition apply_event (hw : gmap (Z * string) float) (ev : event)
    : gmap (Z * string) float :=
  match ev with
  | set_control m rq => <[motor_key m := output rq]> hw
  | _ => hw
  end.

Definition run_trace (hw : gmap (Z * string) float) (tr : list event)
    : gmap (Z * string) float :=
  foldl apply_event hw tr.

(** The duty cycles a trace commands, in order. *)
Definition duty_cycles (tr : list event) : list float :=
  omap (fun ev => match ev with
                  | set_control _ rq => Some (output rq)
                  | _ => None
                  end) tr.

(** The driver-station warnings of a trace, in order. *)
Definition warnings (tr : list event) : list string :=
  omap (fun ev => match ev with
                  | reportWarning msg _ => Some msg
                  | _ => None
                  end) tr.

(** The devices a trace opens, in order. *)
Definition devices_opened (tr : list event) : list Z :=
  omap (fun ev => match ev with
                  | TalonFX_init id _ => Some id
                  | _ => None
                  end) tr.

(** ** The methods of [Drive] *)

Section DriveMethods.

Variable DriveConstants : DriveConstantsT.
Variable env : py_env.

(** [Drive._init_hardware] *)
Fixpoint _init_hardware_from (modules : list SwerveModule) (self : Drive)
    : M Drive :=
  match modules with
  | [] => mret self
  | module :: rest =>
      dm ← new_TalonFX (drive_motor_id module) (CANBUS_NAME DriveConstants);
      let self := append_drive_motor self dm in
      sm ← new_TalonFX (steer_motor_id module) (CANBUS_NAME DriveConstants);
      let self := append_steer_motor self sm in
      _init_hardware_from rest self
  end.

Definition _init_hardware (self : Drive) : M Drive :=
  _init_hardware_from (MODULES DriveConstants) self.

Definition tuner_drivetrain_candidates : list (string * string) :=
  [ ("generated.command_swerve_drivetrain", "CommandSwerveDrivetrain");
    ("subsystems.command_swerve_drivetrain", "CommandSwerveDrivetrain");
    ("command_swerve_drivetrain", "CommandSwerveDrivetrain") ].

(** The loop of [Drive._try_create_tuner_drivetrain]. *)
Fixpoint _try_create_tuner_drivetrain_from (candidates : list (string * string))
    : M (option tuner_object) :=
  match candidates with
  | [] => mret None
  | (module_name, class_name) :: rest =>
      match import_module env module_name with
      | Raises exc =>
          if is_ModuleNotFoundError exc
          then _try_create_tuner_drivetrain_from rest
          else raise exc
      | Returns module =>
          match getattr_class module class_name with
          | None => _try_create_tuner_drivetrain_from rest
          | Some drivetrain_type =>
              try_except (call drivetrain_type) is_Exception
                (fun exc =>
                   DriverStation_reportWarning
                     ("Found " +:+ module_name +:+ "." +:+ class_name
                      +:+ " but failed to construct it: "
                      +:+ exn_str exc) false;;
                   mret None)
          end
      end
  end.

Definition _try_create_tuner_drivetrain : M (option tuner_object) :=
  _try_create_tuner_drivetrain_from tuner_drivetrain_candidates.

Definition tuner_auto_factory_candidates : list (string * string) :=
  [ ("subsystems.tuner_autonomous", "build_autonomous_command");
    ("generated.tuner_autonomous", "build_autonomous_command");
    ("tuner_autonomous", "build_autonomous_command") ].

(** The loop of [Drive._try_create_tuner_auto_factory]. *)
Fixpoint _try_create_tuner_auto_factory_from (candidates : list (string * string))
    : M (option factory) :=
  match candidates with
  | [] => mret None
  | (module_name, fn_name) :: rest =>
      match import_module env module_name with
      | Raises exc =>
          if is_ModuleNotFoundError exc
          then _try_create_tuner_auto_factory_from rest
          else raise exc
      | Returns module =>
          match getattr_fn module fn_name with
          | Some (Callable f) => mret (Some f)
          | _ => _try_create_tuner_auto_factory_from rest
          end
      end
  end.

Definition _try_create_tuner_auto_factory : M (option factory) :=
  _try_create_tuner_auto_factory_from tuner_auto_factory_candidates.

(** [Drive.__init__] *)
Definition Drive__init__ (globals : module_globals)
    (scheduler : option CommandScheduler) : M Drive :=
  if negb (TalonFX_bound globals) || negb (DutyCycleOut_bound globals) then
    let msg := "Phoenix 6 is required for swerve bring-up. Install project dependencies first." in
    raise (match _PHOENIX_IMPORT_ERROR globals with
           | Some cause => ExnFrom RuntimeError msg cause
           | None => Exn RuntimeError msg
           end)
  else
    td ← _try_create_tuner_drivetrain;
    af ← _try_create_tuner_auto_factory;
    _init_hardware
      {| scheduler := scheduler;
         tuner_drivetrain := td;
         _autonomous_factory := af;
         drive_motors := [];
         steer_motors := [] |}.

(** [from subsystems import drive] followed by [drive.Drive(scheduler)],
    as [Robot.robotInit] does. *)
Definition construct_Drive (scheduler : option CommandScheduler) : M Drive :=
  match load_module env with
  | Returns globals => Drive__init__ globals scheduler
  | Raises exc => raise exc
  end.

(** The four wheel commands of [Drive.drive], lines 128-133. *)
Definition drive_outputs (x y omega : float) : list float :=
  [ _clamp (x + y + omega);   (* front left *)
    _clamp (x - y - omega);   (* front right *)
    _clamp (x - y + omega);   (* back left *)
    _clamp (x + y - omega) ]. (* back right *)

(** The built-in mixer: [Drive.drive] from line 119 on. *)
Definition open_loop_mix (self : Drive)
    (x_displacement y_displacement rotation : float) : M unit :=
  let x := _apply_deadband x_displacement (TRANSLATION_DEADBAND DriveConstants) in
  let y := _apply_deadband y_displacement (TRANSLATION_DEADBAND DriveConstants) in
  let omega := _apply_deadband rotation (ROTATION_DEADBAND DriveConstants) in
  let x := x * MAX_TRANSLATION_OUTPUT DriveConstants in
  let y := y * MAX_TRANSLATION_OUTPUT DriveConstants in
  let omega := omega * MAX_ROTATION_OUTPUT DriveConstants in
  for_each (zip (drive_motors self) (drive_outputs x y omega))
    (fun '(motor, out) => command_duty motor out);;
  let steer_output := _clamp omega in
  for_each (steer_motors self) (fun motor => command_duty motor steer_output).

(** [Drive.drive] *)
Definition drive (self : Drive)
    (x_displacement y_displacement rotation : float) (field_oriented : bool)
    : M unit :=
  done_by_tuner ←
    match tuner_drivetrain self with
    | Some td =>
        match attr_drive td with
        | Some (Callable tuner_drive) =>
            try_except
              (tuner_drive x_displacement y_displacement rotation field_oriented;;
               mret true)
              is_TypeError
              (fun _ => mret false)
        | _ => mret false
        end
    | None => mret false
    end;
  if done_by_tuner : bool then mret tt
  else open_loop_mix self x_displacement y_displacement rotation.

(** [Drive.stop] *)
Definition stop (self : Drive) : M unit :=
  for_each (drive_motors self) (fun motor => command_duty motor 0);;
  for_each (steer_motors self) (fun motor => command_duty motor 0).

(** What [get_autonomous_command] hands to the scheduler:
    [InstantCommand(self.stop)], or a command built by foreign code. *)
Inductive Command :=
| InstantCommand (toRun : Drive -> M unit)
| foreign_command (command : py_object).

(** [command is not None and hasattr(command, "schedule")] *)
Definition schedulable (command : option py_object) : option py_object :=
  match command with
  | Some c => if has_schedule c then Some c else None
  | None => None
  end.

(** [Drive.get_autonomous_command] *)
Definition get_autonomous_command (self : Drive) : M Command :=
  from_tuner ←
    match tuner_drivetrain self with
    | Some td =>
        match attr_get_autonomous_command td with
        | Some (Callable getter) => command ← getter; mret (schedulable command)
        | _ => mret None
        end
    | None => mret None
    end;
  match from_tuner with
  | Some command => mret (foreign_command command)
  | None =>
      from_factory ←
        match _autonomous_factory self with
        | Some f =>
            command ← try_except (f no_args) is_TypeError (fun _ => f with_self);
            mret (schedulable command)
        | None => mret None
        end;
      match from_factory with
      | Some command => mret (foreign_command command)
      | None =>
          DriverStation_reportWarning
            "No Phoenix 6 Tuner autonomous command source found; using stop command."
            false;;
          mret (InstantCommand stop)
      end
  end.

(** Running a command once the scheduler starts it: an [InstantCommand]
    calls its function on the object the bound method belongs to; what a
    foreign command does is its own business. *)
Definition run_command (command : Command) (self : Drive) : M unit :=
  match command with
  | InstantCommand toRun => toRun self
  | foreign_command c => emit (external (repr c))
  end.

End DriveMethods.

(** ** Candidates that yield nothing

    A candidate the drivetrain probe passes over: its module is not
    installed, or has no such class. *)
Definition lacks_class (env : py_env) (candidate : string * string) : bool :=
  match import_module env candidate.1 with
  | Raises exc => is_ModuleNotFoundError exc
  | Returns module =>
      match getattr_class module candidate.2 with
      | None => true
      | Some _ => false
      end
  end.

(** A candidate the factory probe passes over: its module is not
    installed, or has no callable of that name. *)
Definition lacks_factory (env : py_env) (candidate : string * string) : bool :=
  match import_module env candidate.1 with
  | Raises exc => is_ModuleNotFoundError exc
  | Returns module =>
      match getattr_fn module candidate.2 with
      | Some (Callable _) => false
      | _ => true
      end
  end.

(** The handles [_init_hardware] opens for a configuration. *)
Definition drive_handles (DriveConstants : DriveConstantsT) (modules : list SwerveModule)
    : list TalonFX :=
  (fun module => {| device_id := drive_motor_id module;
                    canbus := CANBUS_NAME DriveConstants |}) <$> modules.

Definition steer_handles (DriveConstants : DriveConstantsT) (modules : list SwerveModule)
    : list TalonFX :=
  (fun module => {| device_id := steer_motor_id module;
                    canbus := CANBUS_NAME DriveConstants |}) <$> modules.

Definition hardware_events (DriveConstants : DriveConstantsT) (modules : list SwerveModule)
    : list event :=
  modules ≫= (fun module =>
    [ TalonFX_init (drive_motor_id module) (CANBUS_NAME DriveConstants);
      TalonFX_init (steer_motor_id module) (CANBUS_NAME DriveConstants) ]).

(** ** Concrete configurations and environments

    Values on which the model is run below.  The constants are examples of
    a configuration, not the robot's. *)

Module Sample.

Definition constants : DriveConstantsT :=
  {| TRANSLATION_DEADBAND := 0.125;
     ROTATION_DEADBAND := 0.125;
     MAX_TRANSLATION_OUTPUT := 0.5;
     MAX_ROTATION_OUTPUT := 0.25;
     MODULES := [ {| drive_motor_id := 1; steer_motor_id := 2 |};
                  {| drive_motor_id := 3; steer_motor_id := 4 |};
                  {| drive_motor_id := 5; steer_motor_id := 6 |};
                  {| drive_motor_id := 7; steer_motor_id := 8 |} ];
     CANBUS_NAME := "canivore" |}.

Definition no_module (name : string) : exn :=
  Exn ModuleNotFoundError ("No module named " +:+ name).

(** The vendor package is installed, no generated code is. *)
Definition env_bare : py_env :=
  {| phoenix6_imports := Returns tt;
     import_module := fun name => Raises (no_module name) |}.

(** Nothing is installed. *)
Definition env_no_phoenix : py_env :=
  {| phoenix6_imports := Raises (no_module "phoenix6");
     import_module := fun name => Raises (no_module name) |}.

(** A generated drivetrain whose constructor fails. *)
Definition env_broken_tuner : py_env :=
  {| phoenix6_imports := Returns tt;
     import_module := fun name =>
       if String.eqb name "subsystems.command_swerve_drivetrain"
       then Returns
              {| CommandSwerveDrivetrain :=
                   Some (Callable (emit (external "CommandSwerveDrivetrain.__init__");;
                                   raise (Exn OtherException "CAN bus not found")));
                 build_autonomous_command := None |}
       else Raises (no_module name) |}.

Definition motor (id : Z) : TalonFX := {| device_id := id; canbus := "canivore" |}.

(** The object [Drive(None)] builds under [env_bare]. *)
Definition bare_drive : Drive :=
  {| scheduler := None;
     tuner_drivetrain := None;
     _autonomous_factory := None;
     drive_motors := [motor 1; motor 3; motor 5; motor 7];
     steer_motors := [motor 2; motor 4; motor 6; motor 8] |}.

(** An override whose [drive] takes three arguments, not four. *)
Definition tuner_three_args : tuner_object :=
  {| attr_drive :=
       Some (Callable (fun _ _ _ _ =>
         raise (Exn TypeError "drive() takes 4 positional arguments but 5 were given")));
     attr_get_autonomous_command := None |}.

(** An override whose [drive] fails half way for another reason. *)
Definition tuner_faulty : tuner_object :=
  {| attr_drive :=
       Some (Callable (fun _ _ _ _ =>
         emit (external "CommandSwerveDrivetrain.drive");;
         raise (Exn OtherException "device disconnected")));
     attr_get_autonomous_command := None |}.

Definition with_tuner (td : tuner_object) : Drive :=
  {| scheduler := None;
     tuner_drivetrain := Some td;
     _autonomous_factory := None;
     drive_motors := drive_motors bare_drive;
     steer_motors := steer_motors bare_drive |}.

End Sample.

(** ** The motors a trace commands, in order *)

Definition commanded_motors (tr : list event) : list TalonFX :=
  omap (fun ev => match ev with
                  | set_control m _ => Some m
                  | _ => None
                  end) tr.

(** ** The robot program: [robot.py]

    What the three stick reads of one teleop cycle return. *)
Record XboxController := {
  getRightY : float;
  getRightX : float;
  getLeftX : float
}.

Record Robot := {
  Robot_scheduler : CommandScheduler;
  driver_controller : XboxController;
  Robot_drive : Drive;
  autonomous_command : option Command
}.

(** [Robot.robotInit] *)
Definition robotInit (DriveConstants : DriveConstantsT) (env : py_env)
    (controller : XboxController) : M Robot :=
  let scheduler := CommandScheduler_getInstance in
  d ← construct_Drive DriveConstants env (Some scheduler);
  mret {| Robot_scheduler := scheduler;
          driver_controller := controller;
          Robot_drive := d;
          autonomous_command := None |}.

(** [Robot.teleopPeriodic] *)
Definition teleopPeriodic (DriveConstants : DriveConstantsT) (self : Robot) : M unit :=
  let x_displacement := - getRightY (driver_controller self) in
  let y_displacement := - getRightX (driver_controller self) in
  let rotation := - getLeftX (driver_controller self) in
  drive DriveConstants (Robot_drive self) x_displacement y_displacement rotation false.

(** ** Further configurations and foreign objects to run the model on *)

Module Scenario.

Definition auto_routine : py_object := {| repr := "TunerAuto"; has_schedule := true |}.

Definition not_a_command : py_object := {| repr := "42"; has_schedule := false |}.

(** An override that drives and knows an autonomous routine. *)
Definition tuner_ok : tuner_object :=
  {| attr_drive :=
       Some (Callable (fun _ _ _ _ => emit (external "CommandSwerveDrivetrain.drive")));
     attr_get_autonomous_command :=
       Some (Callable (emit (external "CommandSwerveDrivetrain.get_autonomous_command");;
                       mret (Some auto_routine))) |}.

(** An override whose [drive] attribute is a plain value. *)
Definition tuner_no_drive : tuner_object :=
  {| attr_drive := Some NotCallable; attr_get_autonomous_command := None |}.

(** A factory that insists on being given the subsystem. *)
Definition factory_needs_self : factory := fun args =>
  match args with
  | no_args =>
      raise (Exn TypeError
               "build_autonomous_command() missing 1 required positional argument")
  | with_self => emit (external "build_autonomous_command");; mret (Some auto_routine)
  end.

(** A factory that returns something that is not a command. *)
Definition factory_useless : factory := fun _ =>
  emit (external "build_autonomous_command");; mret (Some not_a_command).

(** Generated code in the second drivetrain location and the second
    factory location; the first drivetrain location holds a module without
    the class and the third one a class that must not be reached. *)
Definition env_generated : py_env :=
  {| phoenix6_imports := Returns tt;
     import_module := fun name =>
       if String.eqb name "generated.command_swerve_drivetrain" then
         Returns {| CommandSwerveDrivetrain := None; build_autonomous_command := None |}
       else if String.eqb name "subsystems.command_swerve_drivetrain" then
         Returns {| CommandSwerveDrivetrain :=
                      Some (Callable (emit (external "CommandSwerveDrivetrain.__init__");;
                                      mret (Some tuner_ok)));
                    build_autonomous_command := None |}
       else if String.eqb name "command_swerve_drivetrain" then
         Returns {| CommandSwerveDrivetrain :=
                      Some (Callable (raise (Exn OtherException "must not be reached")));
                    build_autonomous_command := None |}
       else if String.eqb name "subsystems.tuner_autonomous" then
         Returns {| CommandSwerveDrivetrain := None;
                    build_autonomous_command := Some NotCallable |}
       else if String.eqb name "generated.tuner_autonomous" then
         Returns {| CommandSwerveDrivetrain := None;
                    build_autonomous_command := Some (Callable factory_needs_self) |}
       else Raises (Sample.no_module name) |}.

(** A generated module that is installed but does not import. *)
Definition env_broken_import : py_env :=
  {| phoenix6_imports := Returns tt;
     import_module := fun name =>
       if String.eqb name "subsystems.command_swerve_drivetrain"
       then Raises (Exn OtherException "invalid syntax")
       else Raises (Sample.no_module name) |}.

(** A generated drivetrain whose constructor is interrupted. *)
Definition env_interrupted : py_env :=
  {| phoenix6_imports := Returns tt;
     import_module := fun name =>
       if String.eqb name "generated.command_swerve_drivetrain"
       then Returns
              {| CommandSwerveDrivetrain :=
                   Some (Callable (emit (external "CommandSwerveDrivetrain.__init__");;
                                   raise (Exn KeyboardInterrupt "")));
                 build_autonomous_command := None |}
       else Raises (Sample.no_module name) |}.

(** Five drive motors and one steer motor that shares a device with the
    first drive motor. *)
Definition lopsided_drive : Drive :=
  {| scheduler := None;
     tuner_drivetrain := None;
     _autonomous_factory := None;
     drive_motors := [Sample.motor 1; Sample.motor 3; Sample.motor 5;
                      Sample.motor 7; Sample.motor 9];
     steer_motors := [Sample.motor 1] |}.

Definition with_factory (f : factory) : Drive :=
  {| scheduler := None;
     tuner_drivetrain := None;
     _autonomous_factory := Some f;
     drive_motors := drive_motors Sample.bare_drive;
     steer_motors := steer_motors Sample.bare_drive |}.

Definition robot (sticks : XboxController) : Robot :=
  {| Robot_scheduler := CommandScheduler_getInstance;
     driver_controller := sticks;
     Robot_drive := Sample.bare_drive;
     autonomous_command := None |}.

(** What [Drive(None)] builds under [env_generated]. *)
Definition generated_drive : Drive :=
  {| scheduler := None;
     tuner_drivetrain := Some tuner_ok;
     _autonomous_factory := Some factory_needs_self;
     drive_motors := drive_motors Sample.bare_drive;
     steer_motors := steer_motors Sample.bare_drive |}.


(** A factory that fails for a reason of its own. *)
Definition factory_broken : factory := fun _ =>
  emit (external "build_autonomous_command");;
  raise (Exn OtherException "no path file").

(** An override that has no routine to offer. *)
Definition tuner_no_auto : tuner_object :=
  {| attr_drive := None;
     attr_get_autonomous_command :=
       Some (Callable (emit (external "CommandSwerveDrivetrain.get_autonomous_command");;
                       mret None)) |}.

End Scenario.

(** ** binary64 comparison facts *)

Lemma SFcompare_swap (a b : spec_float) :
  SFcompare b a = CompOpp <$> SFcompare a b.
Proof.
  destruct a as [sa|sa| |sa ma ea], b as [sb|sb| |sb mb eb]; simpl;
    try reflexivity; try (destruct sa; reflexivity);
    try (destruct sb; reflexivity); try (destruct sa, sb; reflexivity).
  destruct sa, sb; simpl; try reflexivity;
    rewrite (Z.compare_antisym ea eb); destruct (ea ?= eb)%Z; simpl;
    try reflexivity;
    rewrite (Pos.compare_cont_antisym ma mb Eq); simpl;
    destruct (Pos.compare_cont Eq ma mb); reflexivity.
Qed.

Lemma ltb_leb (a b : float) : (a <? b) = true -> (a <=? b) = true.
Proof.
  rewrite FloatAxioms.ltb_spec, FloatAxioms.leb_spec. unfold SFltb, SFleb.
  destruct (SFcompare _ _) as [[]|]; done.
Qed.

Lemma leb_not_ltb (a b : float) : (a <=? b) = true -> (b <? a) = false.
Proof.
  rewrite FloatAxioms.ltb_spec, FloatAxioms.leb_spec. unfold SFltb, SFleb.
  rewrite (SFcompare_swap (Prim2SF a) (Prim2SF b)).
  destruct (SFcompare _ _) as [[]|]; done.
Qed.

Lemma eqb_leb (a b : float) : (a =? b) = true -> (b <=? a) = true.
Proof.
  rewrite FloatAxioms.eqb_spec, FloatAxioms.leb_spec. unfold SFeqb, SFleb.
  rewrite (SFcompare_swap (Prim2SF a) (Prim2SF b)).
  destruct (SFcompare _ _) as [[]|]; done.
Qed.

Lemma _clamp_cases (v : float) :
  (_clamp v = v /\ (-1 <? v) = true /\ (v <? 1) = true)
  \/ _clamp v = -1 \/ _clamp v = 1.
Proof.
  unfold _clamp, py_min, py_max.
  destruct (v <? 1) eqn:Hhi.
  - destruct (-1 <? v) eqn:Hlo; auto.
  - right; right. reflexivity.
Qed.

Lemma _clamp_in_unit_interval (v : float) : in_unit_interval (_clamp v) = true.
Proof.
  unfold in_unit_interval.
  destruct (_clamp_cases v) as [(-> & Hlo & Hhi)|[->| ->]]; try reflexivity.
  rewrite (ltb_leb _ _ Hlo), (ltb_leb _ _ Hhi). reflexivity.
Qed.

(** ** The effect monad on simple loops *)

Lemma for_each_emit {A} (items : list A) (body : A -> M unit) (f : A -> event) :
  (forall a, body a = emit (f a)) ->
  for_each items body = (f <$> items, Returns tt).
Proof.
  intros Hbody. induction items as [|a items IH]; simpl; [reflexivity|].
  rewrite Hbody, IH. reflexivity.
Qed.

Lemma stop_eq (self : Drive) :
  stop self =
    ((fun m => set_control m {| output := 0 |}) <$> (drive_motors self ++ steer_motors self),
     Returns tt).
Proof.
  unfold stop.
  rewrite (for_each_emit (drive_motors self) _ (fun m => set_control m {| output := 0 |}))
    by reflexivity.
  rewrite (for_each_emit (steer_motors self) _ (fun m => set_control m {| output := 0 |}))
    by reflexivity.
  rewrite fmap_app. reflexivity.
Qed.

Lemma run_trace_zeroed (tr : list event) (k : Z * string) :
  Forall (fun ev => exists m, ev = set_control m {| output := 0 |}) tr ->
  forall hw : gmap (Z * string) float,
    hw !! k = Some 0 \/ Exists (fun ev => exists m, ev = set_control m {| output := 0 |}
                                          /\ motor_key m = k) tr ->
    run_trace hw tr !! k = Some 0.
Proof.
  unfold run_trace.
  induction 1 as [|ev tr [m ->] _ IH]; intros hw Hk; simpl.
  - destruct Hk as [Hk|Hk]; [exact Hk|inversion Hk].
  - apply IH. destruct (decide (motor_key m = k)) as [<-|Hne].
    + left. apply lookup_insert_eq.
    + rewrite lookup_insert_ne by exact Hne.
      destruct Hk as [Hk|Hk]; [left; exact Hk|].
      inversion Hk as [? ? (m' & Heq & Hkey)|]; subst; [|right; assumption].
      injection Heq as <-. contradiction.
Qed.

(** ** The built-in mixer *)

Section Mixer.

Variable DriveConstants : DriveConstantsT.

Lemma open_loop_mix_eq (self : Drive) (x_displacement y_displacement rotation : float) :
  let x := _apply_deadband x_displacement (TRANSLATION_DEADBAND DriveConstants)
             * MAX_TRANSLATION_OUTPUT DriveConstants in
  let y := _apply_deadband y_displacement (TRANSLATION_DEADBAND DriveConstants)
             * MAX_TRANSLATION_OUTPUT DriveConstants in
  let omega := _apply_deadband rotation (ROTATION_DEADBAND DriveConstants)
             * MAX_ROTATION_OUTPUT DriveConstants in
  open_loop_mix DriveConstants self x_displacement y_displacement rotation =
    (((fun p => set_control p.1 {| output := p.2 |})
        <$> zip (drive_motors self) (drive_outputs x y omega))
     ++ ((fun m => set_control m {| output := _clamp omega |}) <$> steer_motors self),
     Returns tt).
Proof.
  intros x y omega. unfold open_loop_mix.
  fold x y omega.
  rewrite (for_each_emit (zip _ _) _ (fun p => set_control p.1 {| output := p.2 |}))
    by (intros [m o]; reflexivity).
  rewrite (for_each_emit (steer_motors self) _
             (fun m => set_control m {| output := _clamp omega |}))
    by reflexivity.
  reflexivity.
Qed.

Lemma drive_without_override (self : Drive) (x_displacement y_displacement rotation : float)
    (field_oriented : bool) :
  tuner_drivetrain self = None ->
  drive DriveConstants self x_displacement y_displacement rotation field_oriented =
    open_loop_mix DriveConstants self x_displacement y_displacement rotation.
Proof.
  intros Hnone. unfold drive. rewrite Hnone. simpl.
  destruct (open_loop_mix _ _ _ _ _) as [tr r]. reflexivity.
Qed.

Lemma drive_outputs_clamped (x y omega : float) :
  Forall (fun v => in_unit_interval v = true) (drive_outputs x y omega).
Proof.
  unfold drive_outputs. repeat constructor; apply _clamp_in_unit_interval.
Qed.

Lemma Forall_snd_zip {A B} (P : B -> Prop) (l : list A) (k : list B) :
  Forall P k -> Forall P (snd <$> zip l k).
Proof.
  intros Hk. revert l.
  induction Hk as [|b k Hb _ IH]; intros [|a l]; simpl; constructor; auto.
Qed.

Lemma duty_cycles_app (tr1 tr2 : list event) :
  duty_cycles (tr1 ++ tr2) = duty_cycles tr1 ++ duty_cycles tr2.
Proof. unfold duty_cycles. apply omap_app. Qed.

Lemma duty_cycles_set_control {A} (f : A -> TalonFX) (g : A -> float) (l : list A) :
  duty_cycles ((fun a => set_control (f a) {| output := g a |}) <$> l) = g <$> l.
Proof.
  unfold duty_cycles. induction l as [|a l IH]; [reflexivity|].
  simpl. f_equal. exact IH.
Qed.

(** C1: without an override, [drive] commands the four drive motors in
    the order front-left, front-right, back-left, back-right with
    clamp(x+y+w), clamp(x-y-w), clamp(x-y+w), clamp(x+y-w), where x, y and w
    are the inputs after their deadband and their gain, and then every steer
    motor with clamp(w); nothing else happens and the call returns. *)
Theorem drive_mixes_in_order (self : Drive) (fl fr bl br : TalonFX)
    (x_displacement y_displacement rotation : float) (field_oriented : bool) :
  tuner_drivetrain self = None ->
  drive_motors self = [fl; fr; bl; br] ->
  let x := _apply_deadband x_displacement (TRANSLATION_DEADBAND DriveConstants)
             * MAX_TRANSLATION_OUTPUT DriveConstants in
  let y := _apply_deadband y_displacement (TRANSLATION_DEADBAND DriveConstants)
             * MAX_TRANSLATION_OUTPUT DriveConstants in
  let w := _apply_deadband rotation (ROTATION_DEADBAND DriveConstants)
             * MAX_ROTATION_OUTPUT DriveConstants in
  drive DriveConstants self x_displacement y_displacement rotation field_oriented =
    ([ set_control fl {| output := _clamp (x + y + w) |};
       set_control fr {| output := _clamp (x - y - w) |};
       set_control bl {| output := _clamp (x - y + w) |};
       set_control br {| output := _clamp (x + y - w) |} ]
     ++ ((fun m => set_control m {| output := _clamp w |}) <$> steer_motors self),
     Returns tt).
Proof.
  intros Hnone Hmotors x y w.
  rewrite drive_without_override by exact Hnone.
  rewrite open_loop_mix_eq, Hmotors. reflexivity.
Qed.

(** C2: without an override, whatever the inputs, each of the four wheel
    outputs and the steer output lies in [-1, 1], and so does every duty
    cycle [drive] commands. *)
Theorem drive_outputs_in_unit_interval (self : Drive)
    (x_displacement y_displacement rotation : float) (field_oriented : bool) :
  tuner_drivetrain self = None ->
  let x := _apply_deadband x_displacement (TRANSLATION_DEADBAND DriveConstants)
             * MAX_TRANSLATION_OUTPUT DriveConstants in
  let y := _apply_deadband y_displacement (TRANSLATION_DEADBAND DriveConstants)
             * MAX_TRANSLATION_OUTPUT DriveConstants in
  let w := _apply_deadband rotation (ROTATION_DEADBAND DriveConstants)
             * MAX_ROTATION_OUTPUT DriveConstants in
  Forall (fun v => in_unit_interval v = true) (drive_outputs x y w)
  /\ in_unit_interval (_clamp w) = true
  /\ Forall (fun v => in_unit_interval v = true)
       (duty_cycles
          (trace_of (drive DriveConstants self x_displacement y_displacement
                       rotation field_oriented))).
Proof.
  intros Hnone x y w.
  split; [apply drive_outputs_clamped|].
  split; [apply _clamp_in_unit_interval|].
  rewrite drive_without_override by exact Hnone.
  rewrite open_loop_mix_eq. unfold trace_of. simpl fst. fold x y w.
  rewrite duty_cycles_app.
  rewrite (duty_cycles_set_control fst snd).
  rewrite (duty_cycles_set_control (fun m => m) (fun _ => _clamp w)).
  apply Forall_app. split.
  - apply Forall_snd_zip, drive_outputs_clamped.
  - apply Forall_fmap, Forall_forall. intros m _. apply _clamp_in_unit_interval.
Qed.

Lemma _apply_deadband_zero (deadband : float) : _apply_deadband 0 deadband = 0.
Proof. unfold _apply_deadband. destruct (abs 0 <? deadband); reflexivity. Qed.

Lemma _apply_deadband_below (value deadband : float) :
  (abs value <? deadband) = true -> _apply_deadband value deadband = 0.
Proof. unfold _apply_deadband. intros ->. reflexivity. Qed.

(** C3: an input whose magnitude is strictly below its axis's deadband is
    treated as exactly 0: its deadbanded value is 0.0, and (without an
    override) [drive] does exactly what it does when that input is 0.0, so
    the commands to the wheels and to the steer motors no longer depend on
    it. *)
Theorem deadband_zeroes_axis (self : Drive)
    (x_displacement y_displacement rotation : float) (field_oriented : bool) :
  tuner_drivetrain self = None ->
  ((abs x_displacement <? TRANSLATION_DEADBAND DriveConstants) = true ->
     _apply_deadband x_displacement (TRANSLATION_DEADBAND DriveConstants) = 0
     /\ drive DriveConstants self x_displacement y_displacement rotation field_oriented
        = drive DriveConstants self 0 y_displacement rotation field_oriented)
  /\ ((abs y_displacement <? TRANSLATION_DEADBAND DriveConstants) = true ->
     _apply_deadband y_displacement (TRANSLATION_DEADBAND DriveConstants) = 0
     /\ drive DriveConstants self x_displacement y_displacement rotation field_oriented
        = drive DriveConstants self x_displacement 0 rotation field_oriented)
  /\ ((abs rotation <? ROTATION_DEADBAND DriveConstants) = true ->
     _apply_deadband rotation (ROTATION_DEADBAND DriveConstants) = 0
     /\ drive DriveConstants self x_displacement y_displacement rotation field_oriented
        = drive DriveConstants self x_displacement y_displacement 0 field_oriented).
Proof.
  intros Hnone.
  split; [|split]; intros Hlow;
    (split; [apply _apply_deadband_below; exact Hlow|]);
    rewrite !drive_without_override by exact Hnone;
    unfold open_loop_mix;
    rewrite (_apply_deadband_below _ _ Hlow), _apply_deadband_zero;
    reflexivity.
Qed.

(** C9: without an override the [field_oriented] flag is not looked at:
    the two runs that differ only in it command the same duty cycles. *)
Theorem field_oriented_ignored (self : Drive)
    (x_displacement y_displacement rotation : float) :
  tuner_drivetrain self = None ->
  drive DriveConstants self x_displacement y_displacement rotation true
  = drive DriveConstants self x_displacement y_displacement rotation false.
Proof.
  intros Hnone. rewrite !drive_without_override by exact Hnone. reflexivity.
Qed.

End Mixer.

(** C10: the deadband test is strict.  A value whose magnitude is at least
    the threshold, and in particular one whose magnitude equals it, comes
    back unchanged. *)
Theorem deadband_is_strict (value deadband : float) :
  ((deadband <=? abs value) = true -> _apply_deadband value deadband = value)
  /\ ((abs value =? deadband) = true -> _apply_deadband value deadband = value).
Proof.
  assert (Hge : (deadband <=? abs value) = true ->
                _apply_deadband value deadband = value).
  { intros Hle. unfold _apply_deadband.
    rewrite (leb_not_ltb _ _ Hle). reflexivity. }
  split; [exact Hge|].
  intros Heq. apply Hge, eqb_leb, Heq.
Qed.

(** C4: [stop] commands every drive motor and then every steer motor with
    a duty cycle of exactly 0 and does nothing else, whatever the object
    holds; whatever each device was given before, it is left at 0. *)
Theorem stop_zeroes_every_motor (self : Drive) :
  stop self =
    ((fun m => set_control m {| output := 0 |}) <$> (drive_motors self ++ steer_motors self),
     Returns tt)
  /\ duty_cycles (trace_of (stop self))
     = replicate (length (drive_motors self ++ steer_motors self)) 0
  /\ forall (hw : gmap (Z * string) float) (m : TalonFX),
       m ∈ drive_motors self ++ steer_motors self ->
       run_trace hw (trace_of (stop self)) !! motor_key m = Some 0.
Proof.
  rewrite stop_eq. unfold trace_of. simpl fst.
  split; [reflexivity|]. split.
  - rewrite (duty_cycles_set_control (fun m => m) (fun _ => 0)).
    induction (drive_motors self ++ steer_motors self) as [|m l IH];
      simpl; [reflexivity|]. f_equal. exact IH.
  - intros hw m Hm. apply run_trace_zeroed.
    + apply Forall_fmap, Forall_forall. intros m' _. exists m'. reflexivity.
    + right. apply Exists_exists.
      exists (set_control m {| output := 0 |}). split.
      * apply (list_elem_of_fmap_2 (fun m => set_control m {| output := 0 |})), Hm.
      * exists m. split; reflexivity.
Qed.

(** ** Construction and discovery *)

Section Discovery.

Variable DriveConstants : DriveConstantsT.
Variable env : py_env.

Lemma new_TalonFX_valid (id : Z) (bus : string) :
  valid_device_id id = true ->
  new_TalonFX id bus = ([TalonFX_init id bus], Returns {| device_id := id; canbus := bus |}).
Proof. intros Hid. unfold new_TalonFX. rewrite Hid. reflexivity. Qed.

Lemma new_TalonFX_invalid (id : Z) (bus : string) :
  valid_device_id id = false ->
  new_TalonFX id bus = ([], Raises (Exn OtherException "device id out of range")).
Proof. intros Hid. unfold new_TalonFX. rewrite Hid. reflexivity. Qed.

Lemma _init_hardware_from_eq (modules : list SwerveModule) (self : Drive) :
  forallb module_ids_valid modules = true ->
  _init_hardware_from DriveConstants modules self =
    (hardware_events DriveConstants modules,
     Returns {| scheduler := scheduler self;
                tuner_drivetrain := tuner_drivetrain self;
                _autonomous_factory := _autonomous_factory self;
                drive_motors := drive_motors self ++ drive_handles DriveConstants modules;
                steer_motors := steer_motors self ++ steer_handles DriveConstants modules |}).
Proof.
  revert self. induction modules as [|module rest IH]; intros self Hids.
  - simpl. rewrite !app_nil_r. destruct self; reflexivity.
  - simpl in Hids. apply andb_prop in Hids as [Hid Hids].
    apply andb_prop in Hid as [Hd Hs].
    simpl. rewrite (new_TalonFX_valid _ _ Hd), (new_TalonFX_valid _ _ Hs).
    simpl. rewrite IH by exact Hids. simpl. rewrite <- !app_assoc. reflexivity.
Qed.

Lemma _init_hardware_from_returns (modules : list SwerveModule) (self : Drive)
    (tr : list event) (made : Drive) :
  _init_hardware_from DriveConstants modules self = (tr, Returns made) ->
  forallb module_ids_valid modules = true.
Proof.
  revert self tr. induction modules as [|module rest IH]; intros self tr;
    [reflexivity|].
  simpl. unfold module_ids_valid at 1.
  destruct (valid_device_id (drive_motor_id module)) eqn:Hd.
  - rewrite (new_TalonFX_valid _ _ Hd). simpl.
    destruct (valid_device_id (steer_motor_id module)) eqn:Hs.
    + rewrite (new_TalonFX_valid _ _ Hs). simpl.
      destruct (_init_hardware_from DriveConstants rest _) as [tr' [made'|exc]] eqn:Hrest;
        [|discriminate].
      intros [= _ Hmade]. subst made'. exact (IH _ _ Hrest).
    + rewrite (new_TalonFX_invalid _ _ Hs). discriminate.
  - rewrite (new_TalonFX_invalid _ _ Hd). discriminate.
Qed.

Lemma warnings_hardware_events (modules : list SwerveModule) :
  warnings (hardware_events DriveConstants modules) = [].
Proof. induction modules as [|module rest IH]; [reflexivity|exact IH]. Qed.

Lemma warnings_init_hardware (modules : list SwerveModule) (self : Drive) :
  warnings (trace_of (_init_hardware_from DriveConstants modules self)) = [].
Proof.
  revert self. induction modules as [|module rest IH]; intros self; [reflexivity|].
  simpl. unfold new_TalonFX.
  destruct (valid_device_id (drive_motor_id module)); [|reflexivity]. simpl.
  destruct (valid_device_id (steer_motor_id module)); [|reflexivity]. simpl.
  specialize (IH (append_steer_motor
                    (append_drive_motor self
                       {| device_id := drive_motor_id module;
                          canbus := CANBUS_NAME DriveConstants |})
                    {| device_id := steer_motor_id module;
                       canbus := CANBUS_NAME DriveConstants |})).
  destruct (_init_hardware_from DriveConstants rest _) as [tr' r]. exact IH.
Qed.

Lemma _try_create_tuner_drivetrain_skip (skipped rest : list (string * string)) :
  forallb (lacks_class env) skipped = true ->
  _try_create_tuner_drivetrain_from env (skipped ++ rest)
  = _try_create_tuner_drivetrain_from env rest.
Proof.
  induction skipped as [|[module_name class_name] skipped IH]; [reflexivity|].
  simpl. intros Hskip. apply andb_prop in Hskip as [Hc Hskip].
  unfold lacks_class in Hc. simpl in Hc.
  destruct (import_module env module_name) as [module|exc].
  - destruct (getattr_class module class_name); [discriminate|]. auto.
  - rewrite Hc. auto.
Qed.

Lemma _try_create_tuner_auto_factory_skip (skipped rest : list (string * string)) :
  forallb (lacks_factory env) skipped = true ->
  _try_create_tuner_auto_factory_from env (skipped ++ rest)
  = _try_create_tuner_auto_factory_from env rest.
Proof.
  induction skipped as [|[module_name fn_name] skipped IH]; [reflexivity|].
  simpl. intros Hskip. apply andb_prop in Hskip as [Hc Hskip].
  unfold lacks_factory in Hc. simpl in Hc.
  destruct (import_module env module_name) as [module|exc].
  - destruct (getattr_fn module fn_name) as [[|f]|]; [auto|discriminate|auto].
  - rewrite Hc. auto.
Qed.

Lemma get_autonomous_command_bare (self : Drive) :
  tuner_drivetrain self = None ->
  _autonomous_factory self = None ->
  get_autonomous_command self
  = ([], Raises (Exn AttributeError
                   "type object 'DriverStation' has no attribute 'reportWarning'")).
Proof.
  intros Htd Haf. unfold get_autonomous_command. rewrite Htd, Haf. reflexivity.
Qed.

(** C5 fails on the code: with neither an override nor an autonomous
    factory, [get_autonomous_command] reaches the fallback, where the
    [reportWarning] lookup raises [AttributeError]; nothing is reported, no
    command is returned, and the [InstantCommand(self.stop)] of the next
    line is never built. *)
Theorem autonomous_fallback_raises_AttributeError (self : Drive) :
  tuner_drivetrain self = None ->
  _autonomous_factory self = None ->
  get_autonomous_command self
  = ([], Raises (Exn AttributeError
                   "type object 'DriverStation' has no attribute 'reportWarning'"))
  /\ forall command, result_of (get_autonomous_command self) <> Returns command.
Proof.
  intros Htd Haf. rewrite get_autonomous_command_bare by assumption.
  split; [reflexivity|]. intros command. discriminate.
Qed.

(** C6: when importing the vendor module fails with [ModuleNotFoundError],
    the module still loads with both classes bound to [None], and
    constructing [Drive] raises [RuntimeError] (chained to the import error)
    before anything else happens: the trace is empty, so no motor handle is
    opened, and no object is returned. *)
Theorem construction_fails_without_phoenix6 (scheduler : option CommandScheduler)
    (exc : exn) :
  phoenix6_imports env = Raises exc ->
  is_ModuleNotFoundError exc = true ->
  load_module env
  = Returns {| TalonFX_bound := false; DutyCycleOut_bound := false;
               _PHOENIX_IMPORT_ERROR := Some exc |}
  /\ construct_Drive DriveConstants env scheduler
     = ([], Raises (ExnFrom RuntimeError
                      "Phoenix 6 is required for swerve bring-up. Install project dependencies first."
                      exc))
  /\ devices_opened (trace_of (construct_Drive DriveConstants env scheduler)) = [].
Proof.
  intros Himport Hclass.
  assert (Hload : load_module env
                  = Returns {| TalonFX_bound := false; DutyCycleOut_bound := false;
                               _PHOENIX_IMPORT_ERROR := Some exc |}).
  { unfold load_module. rewrite Himport, Hclass. reflexivity. }
  split; [exact Hload|].
  unfold construct_Drive. rewrite Hload. split; reflexivity.
Qed.

(** C7: when the override has a callable [drive] and calling it raises, a
    [TypeError] is swallowed without a word and the built-in mixer runs
    after whatever the call had done; any other exception reaches the
    caller and the mixer does not run. *)
Theorem override_TypeError_falls_back (self : Drive) (td : tuner_object)
    (tuner_drive : float -> float -> float -> bool -> M unit)
    (x_displacement y_displacement rotation : float) (field_oriented : bool)
    (tr : list event) (exc : exn) :
  tuner_drivetrain self = Some td ->
  attr_drive td = Some (Callable tuner_drive) ->
  tuner_drive x_displacement y_displacement rotation field_oriented = (tr, Raises exc) ->
  (is_TypeError exc = true ->
     drive DriveConstants self x_displacement y_displacement rotation field_oriented
     = (tr ++ trace_of (open_loop_mix DriveConstants self x_displacement
                          y_displacement rotation),
        Returns tt))
  /\ (is_TypeError exc = false ->
     drive DriveConstants self x_displacement y_displacement rotation field_oriented
     = (tr, Raises exc)).
Proof.
  intros Htd Hattr Hcall. unfold drive. rewrite Htd, Hattr.
  unfold mbind, M_bind. rewrite Hcall. unfold try_except.
  split; intros Hclass; rewrite Hclass.
  - rewrite open_loop_mix_eq. simpl. rewrite !app_nil_r. reflexivity.
  - reflexivity.
Qed.

(** C8, amended: a discovery candidate whose module is not installed or
    lacks the name is passed over without a warning and without an error.
    When none of the candidates yields anything, both probes come back
    empty-handed and construction reports no warning; with device ids the
    vendor constructor accepts it succeeds with no override and no factory,
    and [drive] is then the built-in mixer. *)
Theorem discovery_degrades_gracefully (scheduler : option CommandScheduler) :
  (forall skipped rest : list (string * string),
     forallb (lacks_class env) skipped = true ->
     _try_create_tuner_drivetrain_from env (skipped ++ rest)
     = _try_create_tuner_drivetrain_from env rest)
  /\ (forall skipped rest : list (string * string),
        forallb (lacks_factory env) skipped = true ->
        _try_create_tuner_auto_factory_from env (skipped ++ rest)
        = _try_create_tuner_auto_factory_from env rest)
  /\ (phoenix6_imports env = Returns tt ->
      forallb (lacks_class env) tuner_drivetrain_candidates = true ->
      forallb (lacks_factory env) tuner_auto_factory_candidates = true ->
      _try_create_tuner_drivetrain env = ([], Returns None)
      /\ _try_create_tuner_auto_factory env = ([], Returns None)
      /\ warnings (trace_of (construct_Drive DriveConstants env scheduler)) = []
      /\ (forallb module_ids_valid (MODULES DriveConstants) = true ->
          exists self,
            construct_Drive DriveConstants env scheduler
            = (hardware_events DriveConstants (MODULES DriveConstants), Returns self)
            /\ tuner_drivetrain self = None
            /\ _autonomous_factory self = None
            /\ (forall x_displacement y_displacement rotation field_oriented,
                  drive DriveConstants self x_displacement y_displacement rotation
                    field_oriented
                  = open_loop_mix DriveConstants self x_displacement y_displacement
                      rotation))).
Proof.
  split; [exact _try_create_tuner_drivetrain_skip|].
  split; [exact _try_create_tuner_auto_factory_skip|].
  intros Hphoenix Hclass Hfactory.
  assert (Htd : _try_create_tuner_drivetrain env = ([], Returns None)).
  { unfold _try_create_tuner_drivetrain.
    rewrite <- (app_nil_r tuner_drivetrain_candidates).
    rewrite _try_create_tuner_drivetrain_skip by exact Hclass. reflexivity. }
  assert (Haf : _try_create_tuner_auto_factory env = ([], Returns None)).
  { unfold _try_create_tuner_auto_factory.
    rewrite <- (app_nil_r tuner_auto_factory_candidates).
    rewrite _try_create_tuner_auto_factory_skip by exact Hfactory. reflexivity. }
  assert (Hctor : construct_Drive DriveConstants env scheduler
                  = _init_hardware_from DriveConstants (MODULES DriveConstants)
                      {| scheduler := scheduler;
                         tuner_drivetrain := None;
                         _autonomous_factory := None;
                         drive_motors := [];
                         steer_motors := [] |}).
  { unfold construct_Drive, load_module. rewrite Hphoenix.
    unfold Drive__init__. cbn [TalonFX_bound DutyCycleOut_bound negb orb].
    rewrite Htd, Haf. unfold _init_hardware. simpl.
    destruct (_init_hardware_from _ _ _) as [tr r]. reflexivity. }
  split; [exact Htd|]. split; [exact Haf|]. split.
  - rewrite Hctor. apply warnings_init_hardware.
  - intros Hids. rewrite Hctor, _init_hardware_from_eq by exact Hids.
    eexists. split; [reflexivity|].
    split; [reflexivity|]. split; [reflexivity|].
    intros. apply drive_without_override. reflexivity.
Qed.

End Discovery.

Lemma discovery_propagates_other_import_errors (env : py_env)
    (module_name class_name : string) (rest : list (string * string)) (exc : exn) :
  import_module env module_name = Raises exc ->
  is_ModuleNotFoundError exc = false ->
  _try_create_tuner_drivetrain_from env ((module_name, class_name) :: rest)
  = ([], Raises exc).
Proof. intros Himport Hclass. simpl. rewrite Himport, Hclass. reflexivity. Qed.

(** ** The model at work *)

Import Sample.

Lemma drive_mixes_in_order_witness :
  drive constants bare_drive 1 0.5 (-1) false
  = ([ set_control (motor 1) {| output := 0.5 |};
       set_control (motor 3) {| output := 0.5 |};
       set_control (motor 5) {| output := 0 |};
       set_control (motor 7) {| output := 1 |};
       set_control (motor 2) {| output := -0.25 |};
       set_control (motor 4) {| output := -0.25 |};
       set_control (motor 6) {| output := -0.25 |};
       set_control (motor 8) {| output := -0.25 |} ],
     Returns tt).
Proof.
  exact (drive_mixes_in_order constants bare_drive
           (motor 1) (motor 3) (motor 5) (motor 7) 1 0.5 (-1) false
           eq_refl eq_refl).
Defined.

Lemma drive_outputs_in_unit_interval_witness :
  Forall (fun v => in_unit_interval v = true)
    (duty_cycles (trace_of (drive constants bare_drive 3 infinity nan false))).
Proof.
  exact (proj2 (proj2 (drive_outputs_in_unit_interval constants bare_drive
                         3 infinity nan false eq_refl))).
Defined.

Lemma deadband_zeroes_axis_witness :
  _apply_deadband 0.0625 (TRANSLATION_DEADBAND constants) = 0
  /\ drive constants bare_drive 0.0625 0.5 (-1) true
     = drive constants bare_drive 0 0.5 (-1) true.
Proof.
  exact (proj1 (deadband_zeroes_axis constants bare_drive 0.0625 0.5 (-1) true eq_refl)
           eq_refl).
Defined.

Lemma field_oriented_ignored_witness :
  drive constants bare_drive 1 0.5 (-1) true
  = drive constants bare_drive 1 0.5 (-1) false.
Proof. exact (field_oriented_ignored constants bare_drive 1 0.5 (-1) eq_refl). Defined.

Lemma deadband_is_strict_witness :
  _apply_deadband (-0.125) 0.125 = -0.125
  /\ _apply_deadband 0.75 0.125 = 0.75.
Proof.
  split.
  - exact (proj2 (deadband_is_strict (-0.125) 0.125) eq_refl).
  - exact (proj1 (deadband_is_strict 0.75 0.125) eq_refl).
Defined.

Lemma stop_zeroes_every_motor_witness :
  run_trace {[ motor_key (motor 5) := 1 ]} (trace_of (stop bare_drive))
    !! motor_key (motor 5) = Some 0.
Proof.
  apply (proj2 (proj2 (stop_zeroes_every_motor bare_drive))).
  simpl. do 2 apply list_elem_of_further. apply list_elem_of_here.
Defined.

Lemma autonomous_fallback_raises_AttributeError_witness :
  get_autonomous_command bare_drive
  = ([], Raises (Exn AttributeError
                   "type object 'DriverStation' has no attribute 'reportWarning'"))
  /\ forall command, result_of (get_autonomous_command bare_drive) <> Returns command.
Proof. exact (autonomous_fallback_raises_AttributeError bare_drive eq_refl eq_refl). Defined.

Lemma construction_fails_without_phoenix6_witness :
  construct_Drive constants env_no_phoenix None
  = ([], Raises (ExnFrom RuntimeError
                   "Phoenix 6 is required for swerve bring-up. Install project dependencies first."
                   (no_module "phoenix6"))).
Proof.
  exact (proj1 (proj2 (construction_fails_without_phoenix6 constants env_no_phoenix
                         None (no_module "phoenix6") eq_refl eq_refl))).
Defined.

Lemma override_TypeError_falls_back_witness :
  drive constants (with_tuner tuner_three_args) 1 0.5 (-1) false
  = drive constants bare_drive 1 0.5 (-1) false
  /\ drive constants (with_tuner tuner_faulty) 1 0.5 (-1) false
     = ([external "CommandSwerveDrivetrain.drive"],
        Raises (Exn OtherException "device disconnected")).
Proof.
  split.
  - exact (proj1 (override_TypeError_falls_back constants (with_tuner tuner_three_args)
                    tuner_three_args _ 1 0.5 (-1) false [] _ eq_refl eq_refl eq_refl)
             eq_refl).
  - exact (proj2 (override_TypeError_falls_back constants (with_tuner tuner_faulty)
                    tuner_faulty _ 1 0.5 (-1) false _ _ eq_refl eq_refl eq_refl)
             eq_refl).
Defined.

Lemma discovery_degrades_gracefully_witness :
  _try_create_tuner_drivetrain env_bare = ([], Returns None)
  /\ _try_create_tuner_auto_factory env_bare = ([], Returns None)
  /\ warnings (trace_of (construct_Drive constants env_bare None)) = []
  /\ exists self,
       construct_Drive constants env_bare None
       = (hardware_events constants (MODULES constants), Returns self)
       /\ tuner_drivetrain self = None
       /\ _autonomous_factory self = None
       /\ (forall x_displacement y_displacement rotation field_oriented,
             drive constants self x_displacement y_displacement rotation field_oriented
             = open_loop_mix constants self x_displacement y_displacement rotation).
Proof.
  destruct (proj2 (proj2 (discovery_degrades_gracefully constants env_bare None))
              eq_refl eq_refl eq_refl) as (Htd & Haf & Hquiet & Hvalid).
  split; [exact Htd|]. split; [exact Haf|]. split; [exact Hquiet|].
  exact (Hvalid eq_refl).
Defined.

(** C8 as stated fails: with the vendor package installed and no generated
    code, construction ends without an override and without any warning. *)
Lemma construction_without_override_is_silent :
  ~ (forall (env : py_env) (tr : list event) (self : Drive),
       construct_Drive constants env None = (tr, Returns self) ->
       tuner_drivetrain self = None ->
       warnings tr <> []).
Proof.
  intros Hwarn.
  apply (Hwarn env_bare
           (hardware_events constants (MODULES constants)) bare_drive);
    reflexivity.
Qed.

(** ** More binary64 facts *)

Lemma SFcompare_refl (a : spec_float) : a <> S754_nan -> SFcompare a a = Some Eq.
Proof.
  destruct a as [s|s| |s m e]; intros Hnan; simpl;
    try (destruct s; reflexivity); try contradiction.
  rewrite Z.compare_refl, Pos.compare_cont_refl. destruct s; reflexivity.
Qed.

Lemma Prim2SF_nan : Prim2SF nan = S754_nan.
Proof. reflexivity. Qed.

Lemma is_nan_eq (v : float) : is_nan v = true -> v = nan.
Proof.
  unfold is_nan. rewrite FloatAxioms.eqb_spec. unfold SFeqb. intros Hne.
  apply Prim2SF_inj. rewrite Prim2SF_nan.
  destruct (Prim2SF v) as [s|s| |s m e] eqn:Hv; try reflexivity;
    rewrite SFcompare_refl in Hne by discriminate; discriminate.
Qed.

Lemma add_nan_r (a : float) : a + nan = nan.
Proof.
  apply Prim2SF_inj. rewrite add_spec, Prim2SF_nan.
  destruct (Prim2SF a); reflexivity.
Qed.

Lemma add_nan_l (a : float) : nan + a = nan.
Proof.
  apply Prim2SF_inj. rewrite add_spec, Prim2SF_nan.
  destruct (Prim2SF a); reflexivity.
Qed.

Lemma sub_nan_r (a : float) : a - nan = nan.
Proof.
  apply Prim2SF_inj. rewrite sub_spec, Prim2SF_nan.
  destruct (Prim2SF a); reflexivity.
Qed.

Lemma sub_nan_l (a : float) : nan - a = nan.
Proof.
  apply Prim2SF_inj. rewrite sub_spec, Prim2SF_nan.
  destruct (Prim2SF a); reflexivity.
Qed.

Lemma mul_nan_l (a : float) : nan * a = nan.
Proof.
  apply Prim2SF_inj. rewrite mul_spec, Prim2SF_nan.
  destruct (Prim2SF a); reflexivity.
Qed.

Lemma _apply_deadband_nan (deadband : float) : _apply_deadband nan deadband = nan.
Proof.
  unfold _apply_deadband. rewrite FloatAxioms.ltb_spec.
  change (Prim2SF (abs nan)) with S754_nan. reflexivity.
Qed.

Lemma abs_opp (v : float) : abs (- v) = abs v.
Proof.
  apply Prim2SF_inj. rewrite !abs_spec, opp_spec.
  destruct (Prim2SF v); reflexivity.
Qed.

Lemma abs_below_positive (v d : float) : (abs v <? d) = true -> (0 <? d) = true.
Proof.
  rewrite !FloatAxioms.ltb_spec, abs_spec.
  change (Prim2SF 0) with (S754_zero false). unfold SFltb.
  destruct (Prim2SF v) as [s|s| |s m e], (Prim2SF d) as [s'|s'| |s' m' e'];
    simpl; try discriminate; try (destruct s; discriminate);
    destruct s'; try discriminate; reflexivity.
Qed.

Lemma Prim2SF_one : Prim2SF 1 = S754_finite false 4503599627370496%positive (-52)%Z.
Proof. vm_compute. reflexivity. Qed.

Lemma Prim2SF_neg_one :
  Prim2SF (-1) = S754_finite true 4503599627370496%positive (-52)%Z.
Proof. vm_compute. reflexivity. Qed.

Lemma Prim2SF_zero : Prim2SF 0 = S754_zero false.
Proof. vm_compute. reflexivity. Qed.

Lemma Prim2SF_infinity : Prim2SF infinity = S754_infinity false.
Proof. vm_compute. reflexivity. Qed.

Lemma leb_neg_one_ltb_one (v : float) : (v <=? -1) = true -> (v <? 1) = true.
Proof.
  rewrite FloatAxioms.ltb_spec, FloatAxioms.leb_spec.
  rewrite Prim2SF_one, Prim2SF_neg_one.
  unfold SFltb, SFleb.
  destruct (Prim2SF v) as [[]|[]| |[] m e]; cbn [SFcompare]; intros Hle;
    first [reflexivity | discriminate Hle].
Qed.

(** A value that is one of the two zeros. *)
Lemma is_zero_spec (z : float) :
  (exists s, Prim2SF z = S754_zero s) -> is_zero z = true.
Proof.
  intros [s Hz]. unfold is_zero. rewrite FloatAxioms.eqb_spec, Hz. reflexivity.
Qed.

Lemma zero_mul_finite (g : float) :
  (abs g <? infinity) = true -> exists s, Prim2SF (0 * g) = S754_zero s.
Proof.
  rewrite FloatAxioms.ltb_spec, abs_spec, mul_spec.
  rewrite Prim2SF_infinity, Prim2SF_zero. unfold SFltb.
  destruct (Prim2SF g) as [s|s| |s m e]; simpl; try discriminate; eauto.
Qed.

Lemma zero_add_zero (a b : float) :
  (exists s, Prim2SF a = S754_zero s) -> (exists s, Prim2SF b = S754_zero s) ->
  exists s, Prim2SF (a + b) = S754_zero s.
Proof.
  intros [sa Ha] [sb Hb]. rewrite add_spec, Ha, Hb.
  destruct sa, sb; simpl; eauto.
Qed.

Lemma zero_sub_zero (a b : float) :
  (exists s, Prim2SF a = S754_zero s) -> (exists s, Prim2SF b = S754_zero s) ->
  exists s, Prim2SF (a - b) = S754_zero s.
Proof.
  intros [sa Ha] [sb Hb]. rewrite sub_spec, Ha, Hb.
  destruct sa, sb; simpl; eauto.
Qed.

Lemma _clamp_zero (z : float) :
  (exists s, Prim2SF z = S754_zero s) -> _clamp z = z.
Proof.
  intros [s Hz]. unfold _clamp, py_min, py_max.
  assert (Hhi : (z <? 1) = true).
  { rewrite FloatAxioms.ltb_spec, Hz, Prim2SF_one. reflexivity. }
  assert (Hlo : (-1 <? z) = true).
  { rewrite FloatAxioms.ltb_spec, Hz, Prim2SF_neg_one. reflexivity. }
  rewrite Hhi, Hlo. reflexivity.
Qed.

(** ** Shaping, further *)

(** X1: clamping twice is clamping once. *)
Theorem _clamp_idempotent (v : float) : _clamp (_clamp v) = _clamp v.
Proof.
  destruct (_clamp_cases v) as [(Hv & _ & _)|[Hv|Hv]].
  - rewrite Hv. exact Hv.
  - rewrite Hv. reflexivity.
  - rewrite Hv. reflexivity.
Qed.

(** X2: [_clamp] is the identity strictly inside (-1, 1), gives 1.0 from
    1.0 upwards and -1.0 from -1.0 downwards. *)
Theorem _clamp_saturates (v : float) :
  ((-1 <? v) = true -> (v <? 1) = true -> _clamp v = v)
  /\ ((1 <=? v) = true -> _clamp v = 1)
  /\ ((v <=? -1) = true -> _clamp v = -1).
Proof.
  unfold _clamp, py_min, py_max. split; [|split].
  - intros Hlo Hhi. rewrite Hhi, Hlo. reflexivity.
  - intros Hhi. rewrite (leb_not_ltb _ _ Hhi). reflexivity.
  - intros Hlo. rewrite (leb_neg_one_ltb_one _ Hlo), (leb_not_ltb _ _ Hlo).
    reflexivity.
Qed.

(** X3: a NaN is clamped to 1.0, the upper end of the range: [min(1.0, nan)]
    keeps its first argument. *)
Theorem _clamp_nan_is_one (v : float) : is_nan v = true -> _clamp v = 1.
Proof. intros Hnan. rewrite (is_nan_eq v Hnan). reflexivity. Qed.

(** X4: applying the deadband twice changes nothing, and what comes out is
    0.0 or a value whose magnitude is not below the deadband. *)
Theorem _apply_deadband_idempotent (value deadband : float) :
  _apply_deadband (_apply_deadband value deadband) deadband
  = _apply_deadband value deadband
  /\ ((abs (_apply_deadband value deadband) <? deadband) = true ->
      _apply_deadband value deadband = 0).
Proof.
  unfold _apply_deadband.
  destruct (abs value <? deadband) eqn:Hlow.
  - split; [|reflexivity]. destruct (abs 0 <? deadband); reflexivity.
  - rewrite Hlow. split; [reflexivity|discriminate].
Qed.

(** ** The mixer, further *)

Section MixerMore.

Variable DriveConstants : DriveConstantsT.

Lemma fst_zip_take {A B} (l : list A) (k : list B) :
  fst <$> zip l k = take (length k) l.
Proof.
  revert k. induction l as [|a l IH]; intros [|b k]; simpl; try reflexivity.
  f_equal. apply IH.
Qed.

Lemma commanded_motors_app (tr1 tr2 : list event) :
  commanded_motors (tr1 ++ tr2) = commanded_motors tr1 ++ commanded_motors tr2.
Proof. unfold commanded_motors. apply omap_app. Qed.

Lemma commanded_motors_set_control {A} (f : A -> TalonFX) (g : A -> float) (l : list A) :
  commanded_motors ((fun a => set_control (f a) {| output := g a |}) <$> l) = f <$> l.
Proof.
  unfold commanded_motors. induction l as [|a l IH]; [reflexivity|].
  simpl. f_equal. exact IH.
Qed.

Lemma warnings_set_control {A} (f : A -> TalonFX) (g : A -> float) (l : list A) :
  warnings ((fun a => set_control (f a) {| output := g a |}) <$> l) = [].
Proof. unfold warnings. induction l as [|a l IH]; [reflexivity|exact IH]. Qed.

Lemma warnings_app (tr1 tr2 : list event) :
  warnings (tr1 ++ tr2) = warnings tr1 ++ warnings tr2.
Proof. unfold warnings. apply omap_app. Qed.

(** X5: without an override, [drive] returns normally, reports no warning,
    and commands the first four drive motors (fewer when there are fewer)
    followed by every steer motor: a fifth drive motor is never commanded. *)
Theorem drive_commands_first_four (self : Drive)
    (x_displacement y_displacement rotation : float) (field_oriented : bool) :
  tuner_drivetrain self = None ->
  let run := drive DriveConstants self x_displacement y_displacement rotation
               field_oriented in
  result_of run = Returns tt
  /\ warnings (trace_of run) = []
  /\ commanded_motors (trace_of run) = take 4 (drive_motors self) ++ steer_motors self
  /\ length (duty_cycles (trace_of run))
     = (length (drive_motors self) `min` 4 + length (steer_motors self))%nat.
Proof.
  intros Hnone run. unfold run.
  rewrite drive_without_override by exact Hnone.
  rewrite open_loop_mix_eq. unfold result_of, trace_of. simpl fst. simpl snd.
  split; [reflexivity|].
  rewrite warnings_app, commanded_motors_app, duty_cycles_app.
  rewrite (warnings_set_control fst snd).
  rewrite (warnings_set_control (fun m => m) (fun _ => _)).
  rewrite (commanded_motors_set_control fst snd).
  rewrite (commanded_motors_set_control (fun m => m) (fun _ => _)).
  rewrite (duty_cycles_set_control fst snd).
  rewrite (duty_cycles_set_control (fun m => m) (fun _ => _)).
  split; [reflexivity|]. split.
  - rewrite fst_zip_take, list_fmap_id. reflexivity.
  - rewrite length_app, !length_fmap, length_zip_with. reflexivity.
Qed.

(** X6: a NaN input is not filtered by the deadband and saturates the mix:
    with any of the three inputs NaN all four wheel outputs are exactly 1.0,
    and with a NaN rotation every duty cycle [drive] commands, steer motors
    included, is 1.0. *)
Theorem drive_nan_input_saturates (self : Drive)
    (x_displacement y_displacement rotation : float) (field_oriented : bool) :
  tuner_drivetrain self = None ->
  let x := _apply_deadband x_displacement (TRANSLATION_DEADBAND DriveConstants)
             * MAX_TRANSLATION_OUTPUT DriveConstants in
  let y := _apply_deadband y_displacement (TRANSLATION_DEADBAND DriveConstants)
             * MAX_TRANSLATION_OUTPUT DriveConstants in
  let w := _apply_deadband rotation (ROTATION_DEADBAND DriveConstants)
             * MAX_ROTATION_OUTPUT DriveConstants in
  (is_nan x_displacement || is_nan y_displacement || is_nan rotation = true ->
     drive_outputs x y w = [1; 1; 1; 1])
  /\ (is_nan rotation = true ->
      Forall (fun v => v = 1)
        (duty_cycles
           (trace_of (drive DriveConstants self x_displacement y_displacement
                        rotation field_oriented)))).
Proof.
  intros Hnone x y w.
  assert (Hx : is_nan x_displacement = true -> x = nan).
  { intros Hn. unfold x. rewrite (is_nan_eq _ Hn), _apply_deadband_nan.
    apply mul_nan_l. }
  assert (Hy : is_nan y_displacement = true -> y = nan).
  { intros Hn. unfold y. rewrite (is_nan_eq _ Hn), _apply_deadband_nan.
    apply mul_nan_l. }
  assert (Hw : is_nan rotation = true -> w = nan).
  { intros Hn. unfold w. rewrite (is_nan_eq _ Hn), _apply_deadband_nan.
    apply mul_nan_l. }
  assert (Hwheels : is_nan x_displacement || is_nan y_displacement
                    || is_nan rotation = true ->
                    drive_outputs x y w = [1; 1; 1; 1]).
  { intros Hany. unfold drive_outputs.
    apply orb_prop in Hany as [Hany|Hn]; [apply orb_prop in Hany as [Hn|Hn]|].
    - rewrite (Hx Hn). repeat first [rewrite add_nan_l | rewrite sub_nan_l].
      reflexivity.
    - rewrite (Hy Hn).
      repeat first [rewrite add_nan_l | rewrite sub_nan_l
                   | rewrite add_nan_r | rewrite sub_nan_r].
      reflexivity.
    - rewrite (Hw Hn). repeat first [rewrite add_nan_r | rewrite sub_nan_r].
      reflexivity. }
  split; [exact Hwheels|].
  intros Hn.
  rewrite drive_without_override by exact Hnone.
  rewrite open_loop_mix_eq. unfold trace_of. simpl fst. fold x y w.
  rewrite duty_cycles_app.
  rewrite (duty_cycles_set_control fst snd).
  rewrite (duty_cycles_set_control (fun m => m) (fun _ => _clamp w)).
  apply Forall_app. split.
  - apply Forall_snd_zip. rewrite Hwheels by (rewrite Hn; apply orb_true_r).
    repeat constructor.
  - apply Forall_fmap, Forall_forall. intros m _. simpl.
    rewrite (Hw Hn). reflexivity.
Qed.

(** X7: with finite gains, when all three inputs are inside their
    deadbands every duty cycle [drive] commands is a zero. *)
Theorem drive_inside_deadbands_is_still (self : Drive)
    (x_displacement y_displacement rotation : float) (field_oriented : bool) :
  tuner_drivetrain self = None ->
  (abs (MAX_TRANSLATION_OUTPUT DriveConstants) <? infinity) = true ->
  (abs (MAX_ROTATION_OUTPUT DriveConstants) <? infinity) = true ->
  (abs x_displacement <? TRANSLATION_DEADBAND DriveConstants) = true ->
  (abs y_displacement <? TRANSLATION_DEADBAND DriveConstants) = true ->
  (abs rotation <? ROTATION_DEADBAND DriveConstants) = true ->
  Forall (fun v => is_zero v = true)
    (duty_cycles
       (trace_of (drive DriveConstants self x_displacement y_displacement
                    rotation field_oriented))).
Proof.
  intros Hnone Hgt Hgr Hx Hy Hr.
  rewrite drive_without_override by exact Hnone.
  rewrite open_loop_mix_eq. unfold trace_of. simpl fst.
  rewrite (_apply_deadband_below _ _ Hx), (_apply_deadband_below _ _ Hy),
    (_apply_deadband_below _ _ Hr).
  pose proof (zero_mul_finite _ Hgt) as Zt.
  pose proof (zero_mul_finite _ Hgr) as Zr.
  set (t := 0 * MAX_TRANSLATION_OUTPUT DriveConstants) in *.
  set (r := 0 * MAX_ROTATION_OUTPUT DriveConstants) in *.
  rewrite duty_cycles_app.
  rewrite (duty_cycles_set_control fst snd).
  rewrite (duty_cycles_set_control (fun m => m) (fun _ => _clamp r)).
  assert (Hz : forall z, (exists s, Prim2SF z = S754_zero s) ->
                         is_zero (_clamp z) = true).
  { intros z Hzero. rewrite (_clamp_zero z Hzero). apply is_zero_spec, Hzero. }
  apply Forall_app. split.
  - apply Forall_snd_zip. unfold drive_outputs.
    repeat constructor; apply Hz;
      auto using zero_add_zero, zero_sub_zero.
  - apply Forall_fmap, Forall_forall. intros m _. simpl. apply Hz, Zr.
Qed.

(** X8: when the override's [drive] is callable and returns, that call is
    all [drive] does: it gets the raw inputs and the flag, and the built-in
    mixer commands nothing. *)
Theorem drive_delegates_to_override (self : Drive) (td : tuner_object)
    (tuner_drive : float -> float -> float -> bool -> M unit)
    (x_displacement y_displacement rotation : float) (field_oriented : bool)
    (tr : list event) :
  tuner_drivetrain self = Some td ->
  attr_drive td = Some (Callable tuner_drive) ->
  tuner_drive x_displacement y_displacement rotation field_oriented = (tr, Returns tt) ->
  drive DriveConstants self x_displacement y_displacement rotation field_oriented
  = (tr, Returns tt).
Proof.
  intros Htd Hattr Hcall. unfold drive. rewrite Htd, Hattr.
  unfold mbind, M_bind. rewrite Hcall. unfold try_except. simpl.
  rewrite !app_nil_r. reflexivity.
Qed.

(** X9: an override without a callable [drive] (the attribute is missing,
    [None], or a plain value) is ignored: [drive] is the built-in mixer. *)
Theorem drive_ignores_override_without_drive (self : Drive) (td : tuner_object)
    (x_displacement y_displacement rotation : float) (field_oriented : bool) :
  tuner_drivetrain self = Some td ->
  attr_drive td = None \/ attr_drive td = Some NotCallable ->
  drive DriveConstants self x_displacement y_displacement rotation field_oriented
  = open_loop_mix DriveConstants self x_displacement y_displacement rotation.
Proof.
  intros Htd Hattr. unfold drive. rewrite Htd.
  destruct Hattr as [Hattr|Hattr]; rewrite Hattr; simpl;
    destruct (open_loop_mix _ _ _ _ _) as [tr r]; reflexivity.
Qed.

End MixerMore.

(** ** What the devices are left with *)

Lemma run_trace_app (hw : gmap (Z * string) float) (tr1 tr2 : list event) :
  run_trace hw (tr1 ++ tr2) = run_trace (run_trace hw tr1) tr2.
Proof. unfold run_trace. apply foldl_app. Qed.

Lemma run_trace_last_writer (v : float) (tr : list event) (k : Z * string) :
  Forall (fun ev => exists m, ev = set_control m {| output := v |}) tr ->
  forall hw : gmap (Z * string) float,
    hw !! k = Some v \/ Exists (fun ev => exists m, ev = set_control m {| output := v |}
                                          /\ motor_key m = k) tr ->
    run_trace hw tr !! k = Some v.
Proof.
  unfold run_trace.
  induction 1 as [|ev tr [m ->] _ IH]; intros hw Hk; simpl.
  - destruct Hk as [Hk|Hk]; [exact Hk|inversion Hk].
  - apply IH. destruct (decide (motor_key m = k)) as [<-|Hne].
    + left. apply lookup_insert_eq.
    + rewrite lookup_insert_ne by exact Hne.
      destruct Hk as [Hk|Hk]; [left; exact Hk|].
      inversion Hk as [? ? (m' & Heq & Hkey)|]; subst; [|right; assumption].
      injection Heq as <-. contradiction.
Qed.

(** X10: after [drive] without an override every steer motor is left at
    clamp(w), whatever the devices held before and even when a steer motor
    is the same device as a drive motor: the steer commands come last. *)
Theorem drive_leaves_steer_at_clamped_rotation (DriveConstants : DriveConstantsT)
    (self : Drive) (x_displacement y_displacement rotation : float)
    (field_oriented : bool) (hw : gmap (Z * string) float) (m : TalonFX) :
  tuner_drivetrain self = None ->
  m ∈ steer_motors self ->
  run_trace hw
    (trace_of (drive DriveConstants self x_displacement y_displacement rotation
                 field_oriented))
    !! motor_key m
  = Some (_clamp (_apply_deadband rotation (ROTATION_DEADBAND DriveConstants)
                  * MAX_ROTATION_OUTPUT DriveConstants)).
Proof.
  intros Hnone Hm.
  rewrite drive_without_override by exact Hnone.
  rewrite open_loop_mix_eq. unfold trace_of. simpl fst.
  rewrite run_trace_app. apply run_trace_last_writer.
  - apply Forall_fmap, Forall_forall. intros m' _. exists m'. reflexivity.
  - right. apply Exists_exists. eexists. split.
    + apply (list_elem_of_fmap_2 _ _ m), Hm.
    + exists m. split; reflexivity.
Qed.

(** ** Construction and discovery, further *)

Section DiscoveryMore.

Variable DriveConstants : DriveConstantsT.
Variable env : py_env.

(** X11: whenever construction returns, the hardware was opened last, after
    discovery; the object holds one drive and one steer handle per
    configured module, in configuration order, and the scheduler it was
    given. *)
Theorem construct_Drive_motor_lists (sched : option CommandScheduler)
    (tr : list event) (self : Drive) :
  construct_Drive DriveConstants env sched = (tr, Returns self) ->
  drive_motors self = drive_handles DriveConstants (MODULES DriveConstants)
  /\ steer_motors self = steer_handles DriveConstants (MODULES DriveConstants)
  /\ length (drive_motors self) = length (MODULES DriveConstants)
  /\ length (steer_motors self) = length (MODULES DriveConstants)
  /\ scheduler self = sched
  /\ exists before,
       tr = before ++ hardware_events DriveConstants (MODULES DriveConstants).
Proof.
  unfold construct_Drive.
  destruct (load_module env) as [globals|exc]; [|discriminate].
  unfold Drive__init__.
  destruct (negb (TalonFX_bound globals) || negb (DutyCycleOut_bound globals));
    [discriminate|].
  unfold mbind, M_bind.
  destruct (_try_create_tuner_drivetrain env) as [tr1 [td|exc]]; [|discriminate].
  destruct (_try_create_tuner_auto_factory env) as [tr2 [af|exc]]; [|discriminate].
  unfold _init_hardware.
  destruct (_init_hardware_from DriveConstants (MODULES DriveConstants) _)
    as [tr3 [made|exc]] eqn:Hinit; [|discriminate].
  pose proof (_init_hardware_from_returns _ _ _ _ _ Hinit) as Hids.
  rewrite _init_hardware_from_eq in Hinit by exact Hids.
  injection Hinit as <- <-.
  intros [= <- <-]. simpl.
  unfold drive_handles, steer_handles. rewrite !length_fmap.
  repeat split; try reflexivity.
  exists (tr1 ++ tr2). rewrite app_assoc. reflexivity.
Qed.

(** X12: the drivetrain probe takes the first candidate that has the
    class: what its constructor returns is the result, also when that is
    [None], and later candidates are not looked at. *)
Theorem _try_create_tuner_drivetrain_first_found
    (skipped rest : list (string * string)) (module_name class_name : string)
    (module : py_module) (drivetrain_type : attr (M (option tuner_object)))
    (tr : list event) (made : option tuner_object) :
  forallb (lacks_class env) skipped = true ->
  import_module env module_name = Returns module ->
  getattr_class module class_name = Some drivetrain_type ->
  call drivetrain_type = (tr, Returns made) ->
  _try_create_tuner_drivetrain_from env (skipped ++ (module_name, class_name) :: rest)
  = (tr, Returns made).
Proof.
  intros Hskip Himport Hattr Hcall.
  rewrite _try_create_tuner_drivetrain_skip by exact Hskip.
  simpl. rewrite Himport, Hattr, Hcall. reflexivity.
Qed.

(** X13: what makes the drivetrain probe fail: a candidate module whose
    import raises anything but [ModuleNotFoundError], and a constructor that
    raises outside [Exception]; both reach the caller and no warning is
    reported. *)
Theorem _try_create_tuner_drivetrain_fatal
    (skipped rest : list (string * string)) (module_name class_name : string)
    (exc : exn) :
  forallb (lacks_class env) skipped = true ->
  (import_module env module_name = Raises exc ->
   is_ModuleNotFoundError exc = false ->
   _try_create_tuner_drivetrain_from env (skipped ++ (module_name, class_name) :: rest)
   = ([], Raises exc))
  /\ (forall (module : py_module) (drivetrain_type : attr (M (option tuner_object)))
        (tr : list event),
      import_module env module_name = Returns module ->
      getattr_class module class_name = Some drivetrain_type ->
      call drivetrain_type = (tr, Raises exc) ->
      is_Exception exc = false ->
      _try_create_tuner_drivetrain_from env (skipped ++ (module_name, class_name) :: rest)
      = (tr, Raises exc)).
Proof.
  intros Hskip. split.
  - intros Himport Hclass.
    rewrite _try_create_tuner_drivetrain_skip by exact Hskip.
    simpl. rewrite Himport, Hclass. reflexivity.
  - intros module drivetrain_type tr Himport Hattr Hcall Hbase.
    rewrite _try_create_tuner_drivetrain_skip by exact Hskip.
    simpl. rewrite Himport, Hattr, Hcall. unfold try_except. rewrite Hbase.
    reflexivity.
Qed.


(** X15: the factory probe takes the first candidate whose module has a
    callable of the name, passing over names bound to plain values; it
    hands the callable back without calling it and reports nothing. *)
Theorem _try_create_tuner_auto_factory_first_callable
    (skipped rest : list (string * string)) (module_name fn_name : string)
    (module : py_module) (f : factory) :
  forallb (lacks_factory env) skipped = true ->
  import_module env module_name = Returns module ->
  getattr_fn module fn_name = Some (Callable f) ->
  _try_create_tuner_auto_factory_from env (skipped ++ (module_name, fn_name) :: rest)
  = ([], Returns (Some f)).
Proof.
  intros Hskip Himport Hattr.
  rewrite _try_create_tuner_auto_factory_skip by exact Hskip.
  simpl. rewrite Himport, Hattr. reflexivity.
Qed.

(** X22: a drivetrain class whose constructor raises an [Exception] does
    not degrade to "no override": the handler's [reportWarning] lookup
    raises [AttributeError], which leaves the probe after whatever the
    constructor had done; no warning is reported and later candidates are
    not tried. *)
Theorem _try_create_tuner_drivetrain_handler_raises
    (skipped rest : list (string * string)) (module_name class_name : string)
    (module : py_module) (drivetrain_type : attr (M (option tuner_object)))
    (tr : list event) (exc : exn) :
  forallb (lacks_class env) skipped = true ->
  import_module env module_name = Returns module ->
  getattr_class module class_name = Some drivetrain_type ->
  call drivetrain_type = (tr, Raises exc) ->
  is_Exception exc = true ->
  _try_create_tuner_drivetrain_from env (skipped ++ (module_name, class_name) :: rest)
  = (tr, Raises (Exn AttributeError
                   "type object 'DriverStation' has no attribute 'reportWarning'")).
Proof.
  intros Hskip Himport Hattr Hcall Hexc.
  rewrite _try_create_tuner_drivetrain_skip by exact Hskip.
  simpl. rewrite Himport, Hattr, Hcall. unfold try_except. rewrite Hexc.
  simpl. rewrite app_nil_r. reflexivity.
Qed.

End DiscoveryMore.

(** ** The autonomous command, further *)

Lemma schedulable_Some (command : option py_object) (c : py_object) :
  schedulable command = Some c -> command = Some c /\ has_schedule c = true.
Proof.
  destruct command as [c'|]; simpl; [|discriminate].
  destruct (has_schedule c') eqn:Hs; [|discriminate].
  intros [= <-]. split; [reflexivity|exact Hs].
Qed.

(** X16: whatever the override and the factory do, a command that
    [get_autonomous_command] returns is either foreign and has a [schedule]
    attribute, or the stop command: the caller's [command.schedule()] never
    meets [None] or an object without that attribute. *)
Theorem get_autonomous_command_is_schedulable (self : Drive) (tr : list event)
    (command : Command) :
  get_autonomous_command self = (tr, Returns command) ->
  match command with
  | foreign_command c => has_schedule c = true
  | InstantCommand toRun => toRun = stop
  end.
Proof.
  unfold get_autonomous_command, mbind, M_bind.
  set (from_tuner :=
         match tuner_drivetrain self with
         | Some td =>
             match attr_get_autonomous_command td with
             | Some (Callable getter) =>
                 let '(tr0, r) := getter in
                 match r with
                 | Returns a =>
                     let '(tr', r') := mret (schedulable a) in (tr0 ++ tr', r')
                 | Raises e => (tr0, Raises e)
                 end
             | _ => mret None
             end
         | None => mret None
         end).
  assert (Hfrom : forall tr0 c, from_tuner = (tr0, Returns (Some c)) ->
                                has_schedule c = true).
  { unfold from_tuner. intros tr0 c.
    destruct (tuner_drivetrain self) as [td|]; [|discriminate].
    destruct (attr_get_autonomous_command td) as [[|getter]|]; try discriminate.
    destruct getter as [tr1 [r|e]]; [|discriminate].
    simpl. intros [= _ Hs]. apply schedulable_Some in Hs as [_ Hs]. exact Hs. }
  destruct from_tuner as [tr0 [[c|]|e]]; [| |discriminate].
  - simpl. intros [= _ <-]. apply (Hfrom tr0 c). reflexivity.
  - clear Hfrom.
    destruct (_autonomous_factory self) as [f|].
    + unfold try_except.
      destruct (f no_args) as [tr1 [r1|e1]].
      * simpl. destruct (schedulable r1) as [c|] eqn:Hs; simpl.
        -- intros [= _ <-]. apply schedulable_Some in Hs as [_ Hs]. exact Hs.
        -- discriminate.
      * destruct (is_TypeError e1); [|discriminate].
        destruct (f with_self) as [tr2 [r2|e2]]; [|discriminate].
        simpl. destruct (schedulable r2) as [c|] eqn:Hs; simpl.
        -- intros [= _ <-]. apply schedulable_Some in Hs as [_ Hs]. exact Hs.
        -- discriminate.
    + simpl. discriminate.
Qed.

(** X17: a schedulable command from the override's getter is returned as
    it is; the factory, whatever it is, is not called and no warning is
    reported. *)
Theorem get_autonomous_command_prefers_override (self : Drive) (td : tuner_object)
    (getter : M (option py_object)) (tr : list event) (c : py_object) :
  tuner_drivetrain self = Some td ->
  attr_get_autonomous_command td = Some (Callable getter) ->
  getter = (tr, Returns (Some c)) ->
  has_schedule c = true ->
  get_autonomous_command self = (tr, Returns (foreign_command c)).
Proof.
  intros Htd Hattr -> Hs. unfold get_autonomous_command. rewrite Htd, Hattr.
  simpl. rewrite Hs. simpl. rewrite !app_nil_r. reflexivity.
Qed.

(** X18: without an override, a factory that raises [TypeError] when
    called without arguments is called again with the subsystem, and a
    schedulable result of that second call is returned; any other exception
    of the first call reaches the caller. *)
Theorem get_autonomous_command_retries_factory_with_self (self : Drive) (f : factory)
    (tr1 : list event) (exc : exn) :
  tuner_drivetrain self = None ->
  _autonomous_factory self = Some f ->
  f no_args = (tr1, Raises exc) ->
  (is_TypeError exc = true ->
     forall tr2 c, f with_self = (tr2, Returns (Some c)) -> has_schedule c = true ->
       get_autonomous_command self = (tr1 ++ tr2, Returns (foreign_command c)))
  /\ (is_TypeError exc = false ->
      get_autonomous_command self = (tr1, Raises exc)).
Proof.
  intros Htd Haf Hcall. unfold get_autonomous_command. rewrite Htd, Haf.
  unfold mbind, M_bind, try_except. simpl. rewrite Hcall. split.
  - intros Hty tr2 c Hself Hs. rewrite Hty, Hself. simpl. rewrite Hs. simpl.
    rewrite !app_nil_r. reflexivity.
  - intros Hty. rewrite Hty. reflexivity.
Qed.

(** X19: a source that answers with [None] or with an object lacking
    [schedule] does not count: after the override's getter (with no factory)
    or the factory (with no override) gave such an answer, the method goes
    on to its fallback, where the [reportWarning] lookup raises
    [AttributeError]: what the source did stays done, nothing is reported
    and no command is returned. *)
Theorem get_autonomous_command_rejects_unschedulable (self : Drive)
    (tr : list event) (answer : option py_object) :
  schedulable answer = None ->
  (forall td getter,
     tuner_drivetrain self = Some td ->
     attr_get_autonomous_command td = Some (Callable getter) ->
     getter = (tr, Returns answer) ->
     _autonomous_factory self = None ->
     get_autonomous_command self
     = (tr, Raises (Exn AttributeError
                      "type object 'DriverStation' has no attribute 'reportWarning'")))
  /\ (forall f,
        tuner_drivetrain self = None ->
        _autonomous_factory self = Some f ->
        f no_args = (tr, Returns answer) ->
        get_autonomous_command self
        = (tr, Raises (Exn AttributeError
                         "type object 'DriverStation' has no attribute 'reportWarning'"))).
Proof.
  intros Hno. split.
  - intros td getter Htd Hattr -> Haf.
    unfold get_autonomous_command. rewrite Htd, Hattr, Haf.
    simpl. rewrite Hno. simpl. rewrite !app_nil_r. reflexivity.
  - intros f Htd Haf Hcall.
    unfold get_autonomous_command. rewrite Htd, Haf.
    unfold mbind, M_bind, try_except. simpl. rewrite Hcall. simpl.
    rewrite Hno. simpl. rewrite !app_nil_r. reflexivity.
Qed.

(** ** Teleop *)

Lemma _apply_deadband_opp_below (v deadband : float) :
  (abs v <? deadband) = true ->
  _apply_deadband (- v) deadband = 0 /\ _apply_deadband (- 0) deadband = 0.
Proof.
  intros Hlow. unfold _apply_deadband. rewrite !abs_opp.
  rewrite Hlow. change (abs 0) with 0.
  rewrite (abs_below_positive _ _ Hlow). split; reflexivity.
Qed.

(** X20: in teleop a stick axis whose reading is inside its deadband is as
    good as centred: without an override, [teleopPeriodic] commands exactly
    what it commands when that axis reads 0.0. *)
Theorem teleopPeriodic_ignores_stick_inside_deadband (DriveConstants : DriveConstantsT)
    (sched : CommandScheduler) (d : Drive) (auto : option Command)
    (right_y right_x left_x : float) :
  tuner_drivetrain d = None ->
  let robot := fun sticks =>
    {| Robot_scheduler := sched; driver_controller := sticks;
       Robot_drive := d; autonomous_command := auto |} in
  let teleop := fun ry rx lx =>
    teleopPeriodic DriveConstants
      (robot {| getRightY := ry; getRightX := rx; getLeftX := lx |}) in
  ((abs right_y <? TRANSLATION_DEADBAND DriveConstants) = true ->
     teleop right_y right_x left_x = teleop 0 right_x left_x)
  /\ ((abs right_x <? TRANSLATION_DEADBAND DriveConstants) = true ->
     teleop right_y right_x left_x = teleop right_y 0 left_x)
  /\ ((abs left_x <? ROTATION_DEADBAND DriveConstants) = true ->
     teleop right_y right_x left_x = teleop right_y right_x 0).
Proof.
  intros Hnone robot teleop. unfold teleop, robot, teleopPeriodic.
  cbn [getRightY getRightX getLeftX driver_controller Robot_drive].
  split; [|split]; intros Hlow;
    destruct (_apply_deadband_opp_below _ _ Hlow) as [Hv H0];
    rewrite !drive_without_override by exact Hnone;
    unfold open_loop_mix; rewrite Hv, H0; reflexivity.
Qed.

(** ** From start-up to the first teleop cycle *)

Section Startup.

Variable DriveConstants : DriveConstantsT.
Variable env : py_env.

Lemma construct_Drive_without_generated_code (sched : option CommandScheduler) :
  phoenix6_imports env = Returns tt ->
  forallb (lacks_class env) tuner_drivetrain_candidates = true ->
  forallb (lacks_factory env) tuner_auto_factory_candidates = true ->
  forallb module_ids_valid (MODULES DriveConstants) = true ->
  construct_Drive DriveConstants env sched
  = (hardware_events DriveConstants (MODULES DriveConstants),
     Returns {| scheduler := sched;
                tuner_drivetrain := None;
                _autonomous_factory := None;
                drive_motors := drive_handles DriveConstants (MODULES DriveConstants);
                steer_motors := steer_handles DriveConstants (MODULES DriveConstants) |}).
Proof.
  intros Hphoenix Hclass Hfactory Hids.
  unfold construct_Drive, load_module. rewrite Hphoenix.
  unfold Drive__init__. cbn [TalonFX_bound DutyCycleOut_bound negb orb].
  unfold _try_create_tuner_drivetrain, _try_create_tuner_auto_factory.
  rewrite <- (app_nil_r tuner_drivetrain_candidates).
  rewrite _try_create_tuner_drivetrain_skip by exact Hclass.
  rewrite <- (app_nil_r tuner_auto_factory_candidates).
  rewrite _try_create_tuner_auto_factory_skip by exact Hfactory.
  unfold _init_hardware. simpl. rewrite _init_hardware_from_eq by exact Hids.
  reflexivity.
Qed.

Lemma open_loop_mix_commanded_motors (self : Drive) (x y rotation : float) :
  commanded_motors (trace_of (open_loop_mix DriveConstants self x y rotation))
  = take 4 (drive_motors self) ++ steer_motors self.
Proof.
  rewrite open_loop_mix_eq. unfold trace_of. simpl fst.
  rewrite commanded_motors_app.
  rewrite (commanded_motors_set_control fst snd).
  rewrite (commanded_motors_set_control (fun m => m) (fun _ => _)).
  rewrite fst_zip_take, list_fmap_id. reflexivity.
Qed.

(** X21: on an installation without generated code and with device ids
    the vendor constructor accepts, [robotInit] opens the configured motors
    and nothing else, leaves no autonomous command set,
    and the teleop cycle that follows returns normally having commanded the
    drive motors of the first four configured modules and then the steer
    motor of every module. *)
Theorem robotInit_then_teleopPeriodic (sticks : XboxController) :
  phoenix6_imports env = Returns tt ->
  forallb (lacks_class env) tuner_drivetrain_candidates = true ->
  forallb (lacks_factory env) tuner_auto_factory_candidates = true ->
  forallb module_ids_valid (MODULES DriveConstants) = true ->
  exists robot,
    robotInit DriveConstants env sticks
    = (hardware_events DriveConstants (MODULES DriveConstants), Returns robot)
    /\ autonomous_command robot = None
    /\ driver_controller robot = sticks
    /\ result_of (teleopPeriodic DriveConstants robot) = Returns tt
    /\ commanded_motors (trace_of (teleopPeriodic DriveConstants robot))
       = take 4 (drive_handles DriveConstants (MODULES DriveConstants))
         ++ steer_handles DriveConstants (MODULES DriveConstants).
Proof.
  intros Hphoenix Hclass Hfactory Hids.
  unfold robotInit.
  rewrite construct_Drive_without_generated_code by assumption.
  eexists. split; [simpl; rewrite app_nil_r; reflexivity|].
  split; [reflexivity|]. split; [reflexivity|].
  unfold teleopPeriodic. cbn [Robot_drive driver_controller].
  rewrite drive_without_override by reflexivity.
  split.
  - rewrite open_loop_mix_eq. reflexivity.
  - apply open_loop_mix_commanded_motors.
Qed.

End Startup.

(** ** The further properties at work *)

Import Scenario.

Lemma _clamp_saturates_witness :
  _clamp 0.5 = 0.5 /\ _clamp 3 = 1 /\ _clamp neg_infinity = -1.
Proof.
  split; [|split].
  - exact (proj1 (_clamp_saturates 0.5) eq_refl eq_refl).
  - exact (proj1 (proj2 (_clamp_saturates 3)) eq_refl).
  - exact (proj2 (proj2 (_clamp_saturates neg_infinity)) eq_refl).
Defined.

Lemma _clamp_nan_is_one_witness : _clamp (infinity - infinity) = 1.
Proof. exact (_clamp_nan_is_one (infinity - infinity) eq_refl). Defined.

Lemma _apply_deadband_idempotent_witness : _apply_deadband 0.0625 0.125 = 0.
Proof. exact (proj2 (_apply_deadband_idempotent 0.0625 0.125) eq_refl). Defined.

Lemma drive_commands_first_four_witness :
  commanded_motors (trace_of (drive constants lopsided_drive 1 0.5 (-1) false))
  = [motor 1; motor 3; motor 5; motor 7; motor 1]
  /\ length (duty_cycles (trace_of (drive constants lopsided_drive 1 0.5 (-1) false)))
     = 5%nat.
Proof.
  exact (proj2 (proj2 (drive_commands_first_four constants lopsided_drive
                         1 0.5 (-1) false eq_refl))).
Defined.

Lemma drive_nan_input_saturates_witness :
  drive_outputs (_apply_deadband nan 0.125 * 0.5) (_apply_deadband 0 0.125 * 0.5)
    (_apply_deadband 0 0.125 * 0.25)
  = [1; 1; 1; 1]
  /\ Forall (fun v => v = 1)
       (duty_cycles (trace_of (drive constants bare_drive 0 0 nan false))).
Proof.
  split.
  - exact (proj1 (drive_nan_input_saturates constants bare_drive nan 0 0 false eq_refl)
             eq_refl).
  - exact (proj2 (drive_nan_input_saturates constants bare_drive 0 0 nan false eq_refl)
             eq_refl).
Defined.

Lemma drive_inside_deadbands_is_still_witness :
  Forall (fun v => is_zero v = true)
    (duty_cycles (trace_of (drive constants bare_drive 0.0625 (-0.0625) (-0.09375) false))).
Proof.
  exact (drive_inside_deadbands_is_still constants bare_drive 0.0625 (-0.0625) (-0.09375)
           false eq_refl eq_refl eq_refl eq_refl eq_refl eq_refl).
Defined.

Lemma drive_delegates_to_override_witness :
  drive constants (with_tuner tuner_ok) 1 0.5 (-1) true
  = ([external "CommandSwerveDrivetrain.drive"], Returns tt).
Proof.
  exact (drive_delegates_to_override constants (with_tuner tuner_ok) tuner_ok _
           1 0.5 (-1) true _ eq_refl eq_refl eq_refl).
Defined.

Lemma drive_ignores_override_without_drive_witness :
  drive constants (with_tuner tuner_no_drive) 1 0.5 (-1) true
  = open_loop_mix constants (with_tuner tuner_no_drive) 1 0.5 (-1).
Proof.
  exact (drive_ignores_override_without_drive constants (with_tuner tuner_no_drive)
           tuner_no_drive 1 0.5 (-1) true eq_refl (or_intror eq_refl)).
Defined.

Lemma drive_leaves_steer_at_clamped_rotation_witness :
  run_trace {[ motor_key (motor 1) := 1 ]}
    (trace_of (drive constants lopsided_drive 1 0.5 (-1) false))
    !! motor_key (motor 1)
  = Some (-0.25).
Proof.
  apply (drive_leaves_steer_at_clamped_rotation constants lopsided_drive
           1 0.5 (-1) false {[ motor_key (motor 1) := 1 ]} (motor 1) eq_refl).
  apply list_elem_of_here.
Defined.

Lemma construct_Drive_motor_lists_witness :
  drive_motors generated_drive = [motor 1; motor 3; motor 5; motor 7]
  /\ steer_motors generated_drive = [motor 2; motor 4; motor 6; motor 8]
  /\ length (drive_motors generated_drive) = 4%nat
  /\ length (steer_motors generated_drive) = 4%nat
  /\ scheduler generated_drive = None
  /\ exists before,
       external "CommandSwerveDrivetrain.__init__"
         :: hardware_events constants (MODULES constants)
       = before ++ hardware_events constants (MODULES constants).
Proof.
  exact (construct_Drive_motor_lists constants env_generated None
           (external "CommandSwerveDrivetrain.__init__"
              :: hardware_events constants (MODULES constants))
           generated_drive eq_refl).
Defined.

Lemma _try_create_tuner_drivetrain_first_found_witness :
  _try_create_tuner_drivetrain env_generated
  = ([external "CommandSwerveDrivetrain.__init__"], Returns (Some tuner_ok)).
Proof.
  exact (_try_create_tuner_drivetrain_first_found env_generated
           [("generated.command_swerve_drivetrain", "CommandSwerveDrivetrain")]
           [("command_swerve_drivetrain", "CommandSwerveDrivetrain")]
           "subsystems.command_swerve_drivetrain" "CommandSwerveDrivetrain"
           _ _ _ _ eq_refl eq_refl eq_refl eq_refl).
Defined.

Lemma _try_create_tuner_drivetrain_fatal_witness :
  _try_create_tuner_drivetrain env_broken_import
  = ([], Raises (Exn OtherException "invalid syntax"))
  /\ _try_create_tuner_drivetrain env_interrupted
     = ([external "CommandSwerveDrivetrain.__init__"],
        Raises (Exn KeyboardInterrupt "")).
Proof.
  split.
  - exact (proj1 (_try_create_tuner_drivetrain_fatal env_broken_import
                    [("generated.command_swerve_drivetrain", "CommandSwerveDrivetrain")]
                    [("command_swerve_drivetrain", "CommandSwerveDrivetrain")]
                    "subsystems.command_swerve_drivetrain" "CommandSwerveDrivetrain"
                    (Exn OtherException "invalid syntax") eq_refl)
             eq_refl eq_refl).
  - exact (proj2 (_try_create_tuner_drivetrain_fatal env_interrupted
                    []
                    [("subsystems.command_swerve_drivetrain", "CommandSwerveDrivetrain");
                     ("command_swerve_drivetrain", "CommandSwerveDrivetrain")]
                    "generated.command_swerve_drivetrain" "CommandSwerveDrivetrain"
                    (Exn KeyboardInterrupt "") eq_refl)
             _ _ _ eq_refl eq_refl eq_refl eq_refl).
Defined.


Lemma _try_create_tuner_auto_factory_first_callable_witness :
  _try_create_tuner_auto_factory env_generated
  = ([], Returns (Some factory_needs_self)).
Proof.
  exact (_try_create_tuner_auto_factory_first_callable env_generated
           [("subsystems.tuner_autonomous", "build_autonomous_command")]
           [("tuner_autonomous", "build_autonomous_command")]
           "generated.tuner_autonomous" "build_autonomous_command"
           _ _ eq_refl eq_refl eq_refl).
Defined.

Lemma get_autonomous_command_is_schedulable_witness :
  has_schedule auto_routine = true.
Proof.
  exact (get_autonomous_command_is_schedulable (with_factory factory_needs_self)
           [external "build_autonomous_command"] (foreign_command auto_routine)
           eq_refl).
Defined.

Lemma get_autonomous_command_prefers_override_witness :
  get_autonomous_command generated_drive
  = ([external "CommandSwerveDrivetrain.get_autonomous_command"],
     Returns (foreign_command auto_routine)).
Proof.
  exact (get_autonomous_command_prefers_override generated_drive tuner_ok _ _
           auto_routine eq_refl eq_refl eq_refl eq_refl).
Defined.

Lemma get_autonomous_command_retries_factory_with_self_witness :
  get_autonomous_command (with_factory factory_needs_self)
  = ([external "build_autonomous_command"], Returns (foreign_command auto_routine))
  /\ get_autonomous_command (with_factory factory_broken)
     = ([external "build_autonomous_command"],
        Raises (Exn OtherException "no path file")).
Proof.
  split.
  - exact (proj1 (get_autonomous_command_retries_factory_with_self
                    (with_factory factory_needs_self) factory_needs_self [] _
                    eq_refl eq_refl eq_refl)
             eq_refl _ auto_routine eq_refl eq_refl).
  - exact (proj2 (get_autonomous_command_retries_factory_with_self
                    (with_factory factory_broken) factory_broken _ _
                    eq_refl eq_refl eq_refl)
             eq_refl).
Defined.

Lemma get_autonomous_command_rejects_unschedulable_witness :
  get_autonomous_command (with_tuner tuner_no_auto)
  = ([external "CommandSwerveDrivetrain.get_autonomous_command"],
     Raises (Exn AttributeError
               "type object 'DriverStation' has no attribute 'reportWarning'"))
  /\ get_autonomous_command (with_factory factory_useless)
     = ([external "build_autonomous_command"],
        Raises (Exn AttributeError
                  "type object 'DriverStation' has no attribute 'reportWarning'")).
Proof.
  split.
  - exact (proj1 (get_autonomous_command_rejects_unschedulable (with_tuner tuner_no_auto)
                    [external "CommandSwerveDrivetrain.get_autonomous_command"]
                    None eq_refl)
             tuner_no_auto _ eq_refl eq_refl eq_refl eq_refl).
  - exact (proj2 (get_autonomous_command_rejects_unschedulable
                    (with_factory factory_useless)
                    [external "build_autonomous_command"]
                    (Some not_a_command) eq_refl)
             factory_useless eq_refl eq_refl eq_refl).
Defined.

Lemma _try_create_tuner_drivetrain_handler_raises_witness :
  _try_create_tuner_drivetrain env_broken_tuner
  = ([external "CommandSwerveDrivetrain.__init__"],
     Raises (Exn AttributeError
               "type object 'DriverStation' has no attribute 'reportWarning'")).
Proof.
  exact (_try_create_tuner_drivetrain_handler_raises env_broken_tuner
           [("generated.command_swerve_drivetrain", "CommandSwerveDrivetrain")]
           [("command_swerve_drivetrain", "CommandSwerveDrivetrain")]
           "subsystems.command_swerve_drivetrain" "CommandSwerveDrivetrain"
           _ _ _ _ eq_refl eq_refl eq_refl eq_refl eq_refl).
Defined.

Lemma teleopPeriodic_ignores_stick_inside_deadband_witness :
  teleopPeriodic constants
    (robot {| getRightY := 0.0625; getRightX := 0.5; getLeftX := -1 |})
  = teleopPeriodic constants
      (robot {| getRightY := 0; getRightX := 0.5; getLeftX := -1 |}).
Proof.
  exact (proj1 (teleopPeriodic_ignores_stick_inside_deadband constants
                  CommandScheduler_getInstance bare_drive None 0.0625 0.5 (-1) eq_refl)
           eq_refl).
Defined.

Lemma robotInit_then_teleopPeriodic_witness :
  exists r,
    robotInit constants env_bare {| getRightY := -1; getRightX := 0; getLeftX := 0 |}
    = (hardware_events constants (MODULES constants), Returns r)
    /\ autonomous_command r = None
    /\ driver_controller r = {| getRightY := -1; getRightX := 0; getLeftX := 0 |}
    /\ result_of (teleopPeriodic constants r) = Returns tt
    /\ commanded_motors (trace_of (teleopPeriodic constants r))
       = take 4 (drive_handles constants (MODULES constants))
         ++ steer_handles constants (MODULES constants).
Proof.
  exact (robotInit_then_teleopPeriodic constants env_bare
           {| getRightY := -1; getRightX := 0; getLeftX := 0 |}
           eq_refl eq_refl eq_refl eq_refl).
Defined.
